(** * django_fsm.admin: the FSM admin mixin

    A shallow embedding of [src/django_fsm/admin.py] (class
    [FSMAdminMixin]) and the properties of its request handlers.

    Python objects are modelled by what the mixin touches: an instance
    is a table of methods plus a dictionary of attribute values, a
    transition method is a callable that may return or raise, and every
    effect the handlers have on their collaborators (calling a method,
    [obj.save()], [message_user]) is recorded, in order, in a trace. *)

From stdpp Require Import base strings gmap list sorting.

Set Warnings "-register-all,-clear-no-such-hyp".

(** ** Python values *)

Definition User := string.

(** [django.http.HttpRequest], the attributes read by the mixin. *)
Record HttpRequest := {
  POST : gmap string string;
  user : User;
  path : string;
  method : string;
  preserved_filters : string
}.

(** Values found in [Transition.custom], in the settings, in keyword
    arguments and in instance attributes.  A form class is its name and
    its validation: [form_clean data] is [Some cleaned_data] when
    [is_valid()] holds for the posted [data]. *)
Inductive PyVal :=
| VNone
| VBool (b : bool)
| VInt (z : Z)
| VStr (s : string)
| VUser (u : User)
| VRequest (r : HttpRequest)
| VFormClass (form_name : string)
             (form_clean : gmap string string → option (gmap string PyVal)).

(** Python truthiness ([bool(v)]). *)
Definition truthy (v : PyVal) : bool :=
  match v with
  | VNone => false
  | VBool b => b
  | VInt z => negb (z =? 0)%Z
  | VStr s => negb (String.eqb s "")
  | VUser _ | VRequest _ | VFormClass _ _ => true
  end.

(** [d.get(key)], the missing key giving [None]. *)
Definition dict_get (d : gmap string PyVal) (key : string) : PyVal :=
  default VNone (d !! key).

(** [d.get(key, dflt)]. *)
Definition dict_get_default (d : gmap string PyVal) (key : string) (dflt : PyVal) : PyVal :=
  default dflt (d !! key).

Abbreviation Kwargs := (gmap string PyVal).

(** ** Exceptions *)

Inductive Exn :=
| TypeError (msg : string)
| AttributeError (msg : string)
| IndexError
| ImportError (msg : string)
| ConfigurationError
| TransitionNotAllowed (msg : string)
| ConcurrentTransition (msg : string)
| OtherError (cls msg : string).

(** [str(err)] *)
Definition str (e : Exn) : string :=
  match e with
  | TypeError m | AttributeError m | ImportError m
  | TransitionNotAllowed m | ConcurrentTransition m | OtherError _ m => m
  | IndexError => "list index out of range"
  | ConfigurationError => "improperly configured"
  end.

Definition is_TypeError (e : Exn) : bool :=
  match e with TypeError _ => true | _ => false end.

(** ** Transitions and their registry *)

Inductive Source :=
| SrcState (s : string)
| Wildcard.

(** [fsm.Transition]: one edge of the state machine. *)
Record Transition := {
  name : string;
  source : Source;
  target : string;
  custom : gmap string PyVal
}.

(** [FSMMeta.transitions] is a dictionary keyed by source (kept in
    insertion order) or, as [fsm_transition_view] also allows, a list. *)
Inductive Transitions :=
| TransDict (d : list (Source * Transition))
| TransList (l : list Transition).

(** [list(transitions.values())] for a dictionary, the list itself
    otherwise (lines 228-230). *)
Definition transitions_values (ts : Transitions) : list Transition :=
  match ts with
  | TransDict d => d.*2
  | TransList l => l
  end.

(** The [_django_fsm] attribute of a transition method. *)
Record FSMMeta := {
  field : string;
  transitions : Transitions
}.

(** What a call gives back. *)
Inductive RetVal :=
| RNone
| RVal (v : PyVal)
| RTransitions (ts : list Transition).

Inductive Outcome :=
| Returns (r : RetVal)
| Raises (e : Exn).

(** A bound method of the instance: its behaviour on the keyword
    arguments and the instance's attribute values, and its
    [_django_fsm] attribute when it is a transition method. *)
Record Callable := {
  run : Kwargs → gmap string PyVal → Outcome * gmap string PyVal;
  _django_fsm : option FSMMeta
}.

(** What [getattr(obj, name)] finds. *)
Inductive Attr :=
| AMethod (c : Callable)
| AValue (v : PyVal).

(** A model instance: [obj.pk], [obj.id] and its methods; the attribute
    values live in the world, since transitions change them. *)
Record Instance := {
  pk : PyVal;
  id_ : PyVal;
  methods : gmap string Callable;
  (** what [obj.save()] raises, if anything, on given attribute values *)
  save_raises : gmap string PyVal → option Exn
}.

(** ** Effects *)

Inductive Level := INFO | SUCCESS | ERROR.

(** What the handlers do to their collaborators, as calls made: a
    method of the instance was called, [obj.save()] was called,
    [self.message_user] was called.  A call is recorded whether it
    returns or raises. *)
Inductive Event :=
| EvCall (fn : string) (kwargs : Kwargs)
| EvSave
| EvMessage (level : Level) (message : string).

Record World := {
  attrs : gmap string PyVal;
  trace : list Event
}.

Inductive Result (A : Type) :=
| Ok (a : A)
| Err (e : Exn).
Arguments Ok {A} a.
Arguments Err {A} e.

(** State and exception monad: a computation runs in a world and
    returns or raises, in a new world. *)
Definition M (A : Type) : Type := World → Result A * World.

Definition ret {A} (a : A) : M A := fun w => (Ok a, w).
Definition raise {A} (e : Exn) : M A := fun w => (Err e, w).
Definition bind {A B} (m : M A) (k : A → M B) : M B :=
  fun w => match m w with
           | (Ok a, w') => k a w'
           | (Err e, w') => (Err e, w')
           end.

Declare Scope py_scope.
Delimit Scope py_scope with py.
Notation "x <- m ;; k" := (bind m (fun x => k))
  (at level 100, m at next level, right associativity) : py_scope.
Notation "m ;; k" := (bind m (fun _ => k))
  (at level 100, right associativity) : py_scope.
Open Scope py_scope.

Definition emit (ev : Event) : M unit :=
  fun w => (Ok tt, {| attrs := attrs w; trace := trace w ++ [ev] |}).

(** A collaborator that returns, or raises what it is said to raise. *)
Definition returning (failure : option Exn) : M unit :=
  match failure with
  | None => ret tt
  | Some e => raise e
  end.

(** [obj.save()]: the call is made, and raises what the instance's
    [save] raises on its attribute values, if anything. *)
Definition save (obj : Instance) : M unit :=
  emit EvSave ;;
  fun w => returning (save_raises obj (attrs w)) w.

(** [getattr(obj, name)]: a method, else an attribute value, else
    [AttributeError]. *)
Definition getattr (obj : Instance) (attr : string) : M Attr :=
  fun w => match methods obj !! attr with
           | Some c => (Ok (AMethod c), w)
           | None => match attrs w !! attr with
                     | Some v => (Ok (AValue v), w)
                     | None => (Err (AttributeError attr), w)
                     end
           end.

(** Calling what [getattr] found, with keyword arguments. *)
Definition call (fn : string) (f : Attr) (kwargs : Kwargs) : M RetVal :=
  fun w => match f with
           | AValue _ => (Err (TypeError "object is not callable"), w)
           | AMethod c =>
               let '(o, a') := run c kwargs (attrs w) in
               let w' := {| attrs := a'; trace := trace w ++ [EvCall fn kwargs] |} in
               match o with
               | Returns r => (Ok r, w')
               | Raises e => (Err e, w')
               end
           end.

(** Running a handler under [try]: the exception, if any, becomes a
    value and the effects made so far stay. *)
Definition attempt {A} (m : M A) : M (Result A) :=
  fun w => let '(r, w') := m w in (Ok r, w').

(** ** Module level and class attributes *)

(** Lines 29-34: the import guard.  [modules] are the importable
    modules; [import django_fsm_log] raises [ModuleNotFoundError] when
    the module is not among them. *)
Definition FSM_LOG_ENABLED (modules : gset string) : bool :=
  if decide ("django_fsm_log" ∈ modules) then true else false.

(** The process the admin runs in: importable modules, Django
    settings, and what [import_string] resolves a dotted path to
    ([None]: [ImportError]). *)
Record Env := {
  modules : gset string;
  settings : gmap string PyVal;
  import_string : string → option PyVal;
  (** what [message_user] raises, if anything, for a level and a message
      (the messages framework raises when its middleware is missing) *)
  message_failure : Level → string → option Exn
}.

(** [self.message_user(request, message, level)]: the call is made, and
    raises what the messages framework raises, if anything. *)
Definition message_user (env : Env) (message : string) (level : Level) : M unit :=
  emit (EvMessage level message) ;;
  returning (message_failure env level message).

(** A model field as [get_readonly_fields] reads it: its [protected]
    attribute when it has one. *)
Record ModelField := {
  protected : option bool
}.

(** The admin class: the mixin's overridable class attributes and what
    it reads from [self.model._meta] and from its superclass. *)
Record FSMAdminMixin := {
  fsm_fields : list string;
  default_disallow_transition : bool;
  app_label : string;
  model_name : string;
  (** [self.model._meta.get_field]; a missing name is [FieldDoesNotExist] *)
  get_field : gmap string ModelField;
  (** [super().get_readonly_fields(request, obj)] *)
  readonly_fields : list string
}.

(** Line 53: [not getattr(settings, "FSM_ADMIN_FORCE_PERMIT", False)],
    the value the class body gives [default_disallow_transition]. *)
Definition class_default_disallow_transition (settings : gmap string PyVal) : bool :=
  negb (truthy (dict_get_default settings "FSM_ADMIN_FORCE_PERMIT" (VBool false))).

Definition fsm_post_param : string := "_fsm_transition_to".
Definition fsm_transition_form_template : string :=
  "django_fsm/fsm_admin_transition_form.html".

(** Lines 47-50, each already applied to [.format(...)]. *)
Definition fsm_transition_success_msg (transition_name : string) : string :=
  "FSM transition '" +:+ transition_name +:+ "' succeeded.".
Definition fsm_transition_error_msg (transition_name error : string) : string :=
  "FSM transition '" +:+ transition_name +:+ "' failed: " +:+ error +:+ ".".
Definition fsm_transition_not_allowed_msg (transition_name : string) : string :=
  "FSM transition '" +:+ transition_name +:+ "' is not allowed.".
Definition fsm_transition_not_valid_msg (transition_name : string) : string :=
  "FSM transition '" +:+ transition_name +:+ "' is not a valid.".

(** ** Responses *)

Inductive Url :=
(** [add_preserved_filters(context, url)] *)
| UrlPreserved (filters : string) (url : string)
(** [reverse(viewname, kwargs={"object_id": .., "transition_name": ..})] *)
| UrlReverse (viewname : string) (object_id : PyVal) (transition_name : option string).

Record FSMObjectTransition := {
  fsm_field : string;
  available_transitions : list Transition
}.

Inductive HttpResponse :=
| HttpResponseRedirect (redirect_to : Url)
| HttpResponseBadRequest (content : string)
(** [render(request, template, context)]: the context's transition,
    form class and the data the form is bound to *)
| Render (template_name : string) (transition : Transition)
         (transition_form : PyVal) (data : option (gmap string string))
(** [super().change_view(..., extra_context)] *)
| SuperChangeView (fsm_object_transitions : list FSMObjectTransition)
(** [super().response_change(request, obj)] *)
| SuperResponseChange.

(** ** get_readonly_fields (lines 67-83) *)

(** One turn of the loop over [self.fsm_fields]. *)
Definition readonly_step (self : FSMAdminMixin)
    (read_only_fields : list string) (fsm_field_name : string) : list string :=
  if decide (fsm_field_name ∈ read_only_fields) then read_only_fields
  else match get_field self !! fsm_field_name with
       | None => read_only_fields
       | Some field =>
           if default false (protected field)
           then read_only_fields ++ [fsm_field_name]
           else read_only_fields
       end.

Definition get_readonly_fields (self : FSMAdminMixin) : list string :=
  foldl (readonly_step self) (readonly_fields self) (fsm_fields self).

(** ** change_view and _get_fsm_object_transitions (lines 85-115) *)

(** [sorted(...)] on strings: ascending in the order of code points. *)
Definition sorted (l : list string) : list string := merge_sort String.le l.

(** The [if func := getattr(...)] test: a bound method is truthy. *)
Definition attr_truthy (f : Attr) : bool :=
  match f with
  | AMethod _ => true
  | AValue v => truthy v
  end.

(** Iterating over what [func(user=request.user)] returned. *)
Definition iter_transitions (r : RetVal) : M (list Transition) :=
  match r with
  | RTransitions ts => ret ts
  | _ => raise (TypeError "object is not iterable")
  end.

(** The test of the comprehension on line 113. *)
Definition admin_visible (self : FSMAdminMixin) (t : Transition) : bool :=
  truthy (dict_get_default (custom t) "admin" (VBool (default_disallow_transition self))).

Definition get_available_user_transitions_name (field_name : string) : string :=
  "get_available_user_" +:+ field_name +:+ "_transitions".

(** The generator, run to exhaustion over the remaining field names. *)
Fixpoint _get_fsm_object_transitions_from (self : FSMAdminMixin)
    (request : HttpRequest) (obj : Instance) (field_names : list string)
    : M (list FSMObjectTransition) :=
  match field_names with
  | [] => ret []
  | field_name :: rest =>
      let fn := get_available_user_transitions_name field_name in
      func <- getattr obj fn ;;
      if attr_truthy func then
        r <- call fn func {[ "user" := VUser (user request) ]} ;;
        ts <- iter_transitions r ;;
        more <- _get_fsm_object_transitions_from self request obj rest ;;
        ret ({| fsm_field := field_name;
                available_transitions := List.filter (admin_visible self) ts |} :: more)
      else _get_fsm_object_transitions_from self request obj rest
  end.

Definition _get_fsm_object_transitions (self : FSMAdminMixin)
    (request : HttpRequest) (obj : Instance) : M (list FSMObjectTransition) :=
  _get_fsm_object_transitions_from self request obj (sorted (fsm_fields self)).

(** [obj] is what [self.get_object(request, object_id)] found. *)
Definition change_view (self : FSMAdminMixin) (request : HttpRequest)
    (obj : Instance) : M HttpResponse :=
  ctx <- _get_fsm_object_transitions self request obj ;;
  ret (SuperChangeView ctx).

(** ** Transition lookup (lines 199-218) *)

(** Modelled from the spec: [FSMField.get_state] of the [django_fsm]
    package, which is not part of the sources at hand.  It "returns
    current value; fails with ConfigurationError if the field was never
    initialized and no default exists". *)
Definition get_state (fld : string) : M PyVal :=
  fun w => match attrs w !! fld with
           | Some v => (Ok v, w)
           | None => (Err ConfigurationError, w)
           end.

Definition source_matches (current_state : PyVal) (t : Transition) : bool :=
  match source t with
  | Wildcard => true
  | SrcState s => match current_state with
                  | VStr c => String.eqb s c
                  | _ => false
                  end
  end.

(** Modelled from the spec: [FSMMeta.get_transition] of the [django_fsm]
    package, which is not part of the sources at hand.  It "scans
    descriptors for name, in registration order, returns the first
    whose source equals current_state or is wildcard".  Finding none is
    the [None] that [get_fsm_transition]'s return annotation and the
    [getattr] default of [get_fsm_transition_custom] provide for. *)
Definition get_transition (fsm_meta : FSMMeta) (current_state : PyVal)
    : option Transition :=
  List.find (source_matches current_state) (transitions_values (transitions fsm_meta)).

(** [hasattr(f, "_django_fsm")] and the attribute itself. *)
Definition django_fsm_of (f : Attr) : option FSMMeta :=
  match f with
  | AMethod c => _django_fsm c
  | AValue _ => None
  end.

Definition get_fsm_transition (transition_func : Attr) : M (option Transition) :=
  match django_fsm_of transition_func with
  | None => ret None
  | Some fsm_meta =>
      current_state <- get_state (field fsm_meta) ;;
      ret (get_transition fsm_meta current_state)
  end.

(** [getattr(self.get_fsm_transition(...), "custom", {})] *)
Definition get_fsm_transition_custom (transition_func : Attr)
    : M (gmap string PyVal) :=
  t <- get_fsm_transition transition_func ;;
  ret (match t with
       | Some t => custom t
       | None => ∅
       end).

Definition get_fsm_transition_form (env : Env) (transition : Transition) : M PyVal :=
  let form := dict_get (custom transition) "form" in
  match form with
  | VStr dotted_path =>
      match import_string env dotted_path with
      | Some form => ret form
      | None => raise (ImportError dotted_path)
      end
  | _ => ret form
  end.

(** ** response_change (lines 117-197) *)

Definition get_fsm_redirect_url (request : HttpRequest) (obj : Instance) : string :=
  path request.

Definition get_fsm_response (request : HttpRequest) (obj : Instance) : M HttpResponse :=
  ret (HttpResponseRedirect
         (UrlPreserved (preserved_filters request) (get_fsm_redirect_url request obj))).

(** [functools.partial(func, **kwargs)]; it refuses what is not
    callable as soon as it is built. *)
Definition partial (func : Attr) (kwargs : Kwargs) : M (Attr * Kwargs) :=
  match func with
  | AMethod _ => ret (func, kwargs)
  | AValue _ => raise (TypeError "the first argument must be callable")
  end.

(** Lines 145-155: [for fn in [...]: try: fn() except TypeError: pass
    else: break]. *)
Fixpoint call_until_accepted (transition_name : string)
    (fns : list (Attr * Kwargs)) : M unit :=
  match fns with
  | [] => ret tt
  | (fn, kwargs) :: rest =>
      r <- attempt (call transition_name fn kwargs) ;;
      match r with
      | Err (TypeError _) => call_until_accepted transition_name rest
      | Err e => raise e
      | Ok _ => ret tt
      end
  end.

Definition kwargs_request_by (request : HttpRequest) : Kwargs :=
  {[ "request" := VRequest request; "by" := VUser (user request) ]}.
Definition kwargs_by (request : HttpRequest) : Kwargs :=
  {[ "by" := VUser (user request) ]}.

(** Lines 144-157: the body of the outer [try]. *)
Definition invoke_transition (env : Env) (request : HttpRequest)
    (transition_name : string) (transition_func : Attr) : M unit :=
  if FSM_LOG_ENABLED (modules env) then
    fn1 <- partial transition_func (kwargs_request_by request) ;;
    fn2 <- partial transition_func (kwargs_by request) ;;
    call_until_accepted transition_name [fn1; fn2; (transition_func, ∅)]
  else
    call transition_name transition_func ∅ ;; ret tt.

Definition transition_url (self : FSMAdminMixin) (obj : Instance)
    (transition_name : string) : Url :=
  UrlReverse ("admin:" +:+ app_label self +:+ "_" +:+ model_name self +:+ "_transition")
             (pk obj) (Some transition_name).

(** Lines 119-182: the branch taken when the POST names a transition. *)
Definition response_change_transition (self : FSMAdminMixin) (env : Env)
    (request : HttpRequest) (obj : Instance) (transition_name : string)
    : M HttpResponse :=
  found <- attempt (getattr obj transition_name) ;;
  match found with
  | Err (AttributeError _) =>
      message_user env (fsm_transition_not_valid_msg transition_name) ERROR ;;
      get_fsm_response request obj
  | Err e => raise e
  | Ok transition_func =>
      custom <- get_fsm_transition_custom transition_func ;;
      if truthy (dict_get custom "form") then
        ret (HttpResponseRedirect (transition_url self obj transition_name))
      else
        outcome <- attempt (invoke_transition env request transition_name transition_func) ;;
        match outcome with
        | Err (TransitionNotAllowed _) =>
            message_user env (fsm_transition_not_allowed_msg transition_name) ERROR
        | Err (ConcurrentTransition _ as err) =>
            message_user env (fsm_transition_error_msg transition_name (str err)) ERROR
        | Err e => raise e
        | Ok _ =>
            save obj ;;
            message_user env (fsm_transition_success_msg transition_name) INFO
        end ;;
        get_fsm_response request obj
  end.

Definition response_change (self : FSMAdminMixin) (env : Env)
    (request : HttpRequest) (obj : Instance) : M HttpResponse :=
  match POST request !! fsm_post_param with
  | Some transition_name =>
      if truthy (VStr transition_name)
      then response_change_transition self env request obj transition_name
      else ret SuperResponseChange
  | None => ret SuperResponseChange
  end.

(** ** fsm_transition_view (lines 220-280) *)

Definition change_url (self : FSMAdminMixin) (obj : Instance) : Url :=
  UrlReverse ("admin:" +:+ app_label self +:+ "_" +:+ model_name self +:+ "_change")
             (id_ obj) None.

(** [TransitionForm(data=..., instance=obj)] followed by [is_valid()]:
    only a form class can be instantiated. *)
Definition form_is_valid (TransitionForm : PyVal) (data : gmap string string)
    : M (option (gmap string PyVal)) :=
  match TransitionForm with
  | VFormClass _ form_clean => ret (form_clean data)
  | _ => raise (TypeError "object is not callable")
  end.

(** [TransitionForm(instance=obj)] *)
Definition form_unbound (TransitionForm : PyVal) : M unit :=
  match TransitionForm with
  | VFormClass _ _ => ret tt
  | _ => raise (TypeError "object is not callable")
  end.

(** [obj] is what [self.get_object(request, kwargs["object_id"])] found. *)
Definition fsm_transition_view (self : FSMAdminMixin) (env : Env)
    (request : HttpRequest) (obj : Instance) (transition_name : string)
    : M HttpResponse :=
  transition_method <- getattr obj transition_name ;;
  match django_fsm_of transition_method with
  | None =>
      ret (HttpResponseBadRequest (transition_name +:+ " is not a transition method"))
  | Some fsm_meta =>
      match transitions_values (transitions fsm_meta) with
      | [] => raise IndexError
      | transition :: _ =>
          TransitionForm <- get_fsm_transition_form env transition ;;
          if truthy TransitionForm then
            if String.eqb (method request) "POST" then
              cleaned <- form_is_valid TransitionForm (POST request) ;;
              match cleaned with
              | Some cleaned_data =>
                  call transition_name transition_method cleaned_data ;;
                  save obj ;;
                  ret (HttpResponseRedirect (change_url self obj))
              | None =>
                  ret (Render fsm_transition_form_template transition
                              TransitionForm (Some (POST request)))
              end
            else
              form_unbound TransitionForm ;;
              ret (Render fsm_transition_form_template transition TransitionForm None)
          else
            outcome <- attempt (call transition_name transition_method ∅) ;;
            match outcome with
            | Err (TransitionNotAllowed _) =>
                message_user env (fsm_transition_not_allowed_msg transition_name) ERROR
            | Err e => raise e
            | Ok _ =>
                save obj ;;
                message_user env (fsm_transition_success_msg transition_name) SUCCESS
            end ;;
            ret (HttpResponseRedirect (change_url self obj))
      end
  end.

(** * Properties *)

(** ** Vocabulary of the statements *)

(** The field [field_name] exists on the model and its [protected]
    attribute is true. *)
Definition is_protected (self : FSMAdminMixin) (field_name : string) : bool :=
  match get_field self !! field_name with
  | Some f => default false (protected f)
  | None => false
  end.

(** How many times a name occurs in a tuple of names. *)
Definition occurrences (field_name : string) (l : list string) : nat :=
  count_occ String.string_dec l field_name.

Definition is_call (ev : Event) : bool :=
  match ev with EvCall _ _ => true | _ => false end.

(** The world after a handler appended [evs] and left the attributes
    at [a]. *)
Definition after (w : World) (a : gmap string PyVal) (evs : list Event) : World :=
  {| attrs := a; trace := trace w ++ evs |}.

(** What the outer [try] of [response_change] sees of a call. *)
Definition result_of (o : Outcome) : Result unit :=
  match o with
  | Returns _ => Ok tt
  | Raises e => Err e
  end.

Definition raises_TypeError (o : Outcome) : bool :=
  match o with
  | Raises e => is_TypeError e
  | Returns _ => false
  end.

(** From [w] to [w1] nothing happened but method calls: no save, no
    message. *)
Definition only_calls (w w1 : World) : Prop :=
  ∃ calls, trace w1 = trace w ++ calls ∧ forallb is_call calls = true.

(** The redirect of [get_fsm_response]. *)
Definition fsm_redirect (request : HttpRequest) : HttpResponse :=
  HttpResponseRedirect (UrlPreserved (preserved_filters request) (path request)).

(** What the first call of the block is made with. *)
Definition first_kwargs (env : Env) (request : HttpRequest) : Kwargs :=
  if FSM_LOG_ENABLED (modules env) then kwargs_request_by request else ∅.

(** The keyword arguments of [func(user=request.user)]. *)
Definition kwargs_user (request : HttpRequest) : Kwargs :=
  {[ "user" := VUser (user request) ]}.

(** The context entry [e] comes from the accessor of its field: the
    method was called with [user=request.user], returned [ts], and the
    entry holds what the comprehension of line 113 keeps of [ts]. *)
Definition entry_of (self : FSMAdminMixin) (request : HttpRequest) (obj : Instance)
    (e : FSMObjectTransition) (ts : list Transition) : Prop :=
  ∃ c a a',
    methods obj !! get_available_user_transitions_name (fsm_field e) = Some c ∧
    run c (kwargs_user request) a = (Returns (RTransitions ts), a') ∧
    available_transitions e = List.filter (admin_visible self) ts.

(** The entry built for a field whose accessor returns [ts]. *)
Definition entry_for (self : FSMAdminMixin) (avail : string → list Transition)
    (field_name : string) : FSMObjectTransition :=
  {| fsm_field := field_name;
     available_transitions := List.filter (admin_visible self) (avail field_name) |}.

(** The same admin above a superclass that returns [ro] as its
    read-only fields. *)
Definition with_readonly_fields (self : FSMAdminMixin) (ro : list string)
    : FSMAdminMixin :=
  {| fsm_fields := fsm_fields self;
     default_disallow_transition := default_disallow_transition self;
     app_label := app_label self;
     model_name := model_name self;
     get_field := get_field self;
     readonly_fields := ro |}.

(** The same admin with its [fsm_fields] listed as [fields]. *)
Definition with_fsm_fields (self : FSMAdminMixin) (fields : list string)
    : FSMAdminMixin :=
  {| fsm_fields := fields;
     default_disallow_transition := default_disallow_transition self;
     app_label := app_label self;
     model_name := model_name self;
     get_field := get_field self;
     readonly_fields := readonly_fields self |}.

(** The accessor of [field_name] is a method of the object. *)
Definition has_accessor_method (obj : Instance) (field_name : string) : bool :=
  match methods obj !! get_available_user_transitions_name field_name with
  | Some _ => true
  | None => false
  end.

(** A value that Python cannot call: anything but a class. *)
Definition plain_value (v : PyVal) : bool :=
  match v with
  | VFormClass _ _ => false
  | _ => true
  end.

(** What a handler answers after a last collaborator call: the response
    if the call returned, the call's exception otherwise. *)
Definition answered (failure : option Exn) (response : HttpResponse)
    : Result HttpResponse :=
  match failure with
  | None => Ok response
  | Some e => Err e
  end.

(** The calls [response_change] makes on the transition [c], read off
    the method alone: from attribute values [a0] the calls are made with
    the keyword arguments [kws], in this order, the last one has the
    outcome [o] and leaves the attribute values [a].  Without the plugin
    there is one call, without arguments.  With the plugin the first call
    passes [request] and [by], the second [by], the third nothing; the
    calls before the last raised [TypeError] and the last did not. *)
Definition invocation (env : Env) (request : HttpRequest) (c : Callable)
    (a0 : gmap string PyVal) (kws : list Kwargs) (o : Outcome)
    (a : gmap string PyVal) : Prop :=
  let kw1 : Kwargs := {[ "request" := VRequest request; "by" := VUser (user request) ]} in
  let kw2 : Kwargs := {[ "by" := VUser (user request) ]} in
  (("django_fsm_log" ∉ modules env) ∧ kws = [∅] ∧ run c ∅ a0 = (o, a)) ∨
  ("django_fsm_log" ∈ modules env ∧ raises_TypeError o = false ∧
   ((kws = [kw1] ∧ run c kw1 a0 = (o, a)) ∨
    (∃ m1 a1, kws = [kw1; kw2] ∧
       run c kw1 a0 = (Raises (TypeError m1), a1) ∧ run c kw2 a1 = (o, a)) ∨
    (∃ m1 m2 a1 a2, kws = [kw1; kw2; ∅] ∧
       run c kw1 a0 = (Raises (TypeError m1), a1) ∧
       run c kw2 a1 = (Raises (TypeError m2), a2) ∧ run c ∅ a2 = (o, a)))).

(** ** Sample data *)

Definition blog_fields : gmap string ModelField :=
  {[ "state" := {| protected := Some true |};
     "step" := {| protected := Some false |};
     "title" := {| protected := None |} ]}.

Definition blog_admin : FSMAdminMixin :=
  {| fsm_fields := ["state"; "step"; "title"; "state"; "ghost"];
     default_disallow_transition := true;
     app_label := "blog";
     model_name := "post";
     get_field := blog_fields;
     readonly_fields := ["title"] |}.

(** An admin whose superclass already lists the protected field, twice. *)
Definition twice_readonly_admin : FSMAdminMixin :=
  {| fsm_fields := ["state"];
     default_disallow_transition := true;
     app_label := "blog";
     model_name := "post";
     get_field := blog_fields;
     readonly_fields := ["state"; "state"] |}.

(** A POST of the change form that names a transition. *)
Definition post_request (transition_name : string) : HttpRequest :=
  {| POST := {[ "_fsm_transition_to" := transition_name ]};
     user := "alice";
     path := "/admin/blog/post/1/change/";
     method := "POST";
     preserved_filters := "" |}.

Definition env_plain : Env :=
  {| modules := ∅; settings := ∅; import_string := fun _ => None;
     message_failure := fun _ _ => None |}.

Definition env_logged : Env :=
  {| modules := {[ "django_fsm_log" ]}; settings := ∅; import_string := fun _ => None;
     message_failure := fun _ _ => None |}.

Definition draft_world : World :=
  {| attrs := {[ "state" := VStr "draft"; "title" := VStr "Hello" ]}; trace := [] |}.

Definition set_state (s : string) (a : gmap string PyVal) : gmap string PyVal :=
  <[ "state" := VStr s ]> a.

Definition edge (transition_name src dst : string) (custom : gmap string PyVal)
    : Source * Transition :=
  (SrcState src,
   {| name := transition_name; source := SrcState src; target := dst; custom := custom |}).

Definition state_meta (edges : list (Source * Transition)) : option FSMMeta :=
  Some {| field := "state"; transitions := TransDict edges |}.

(** [def publish(self, by=None)]: knows [by], not [request]. *)
Definition publish : Callable :=
  {| run := fun kw a =>
       match kw !! "request" with
       | Some _ => (Raises (TypeError "publish() got an unexpected keyword argument 'request'"), a)
       | None => (Returns RNone, set_state "published" a)
       end;
     _django_fsm := state_meta [edge "publish" "draft" "published" ∅] |}.

(** [def audit(self, **kwargs)] whose body serialises its keyword
    arguments and raises [TypeError] on a user object. *)
Definition audit : Callable :=
  {| run := fun kw a =>
       match kw !! "by" with
       | Some _ => (Raises (TypeError "Object of type User is not JSON serializable"), a)
       | None => (Returns RNone, set_state "audited" a)
       end;
     _django_fsm := state_meta [edge "audit" "draft" "audited" ∅] |}.

(** A transition whose condition fails. *)
Definition archive : Callable :=
  {| run := fun kw a => (Raises (TransitionNotAllowed "conditions not met"), a);
     _django_fsm := state_meta [edge "archive" "draft" "archived" ∅] |}.

(** A transition whose body raises [ValueError]. *)
Definition purge : Callable :=
  {| run := fun kw a => (Raises (OtherError "ValueError" "nothing to purge"), a);
     _django_fsm := state_meta [edge "purge" "draft" "purged" ∅] |}.

(** A transition that loses the race for the state. *)
Definition submit : Callable :=
  {| run := fun kw a => (Raises (ConcurrentTransition "state has changed"), a);
     _django_fsm := state_meta [edge "submit" "draft" "submitted" ∅] |}.

(** A method that is not a transition. *)
Definition refresh : Callable :=
  {| run := fun kw a => (Returns RNone, a); _django_fsm := None |}.

Definition blog_post : Instance :=
  {| pk := VInt 1;
     id_ := VInt 1;
     methods := {[ "publish" := publish; "audit" := audit; "archive" := archive;
                   "submit" := submit; "purge" := purge; "refresh" := refresh ]};
     save_raises := fun _ => None |}.

(** The form of [tests/testapp/admin_forms.py]: a model form on [title]. *)
Definition AdminBlogPostRenameForm : PyVal :=
  VFormClass "AdminBlogPostRenameForm"
    (fun data => match data !! "title" with
                 | Some t => if String.eqb t "" then None else Some {[ "title" := VStr t ]}
                 | None => None
                 end).

(** A second form, asking for a comment. *)
Definition ReviewCommentForm : PyVal :=
  VFormClass "ReviewCommentForm"
    (fun data => match data !! "comment" with
                 | Some t => Some {[ "comment" := VStr t ]}
                 | None => None
                 end).

(** [def retitle(self, title)], a transition from any state whose
    custom metadata asks for the rename form. *)
Definition retitle_transition : Transition :=
  {| name := "retitle"; source := Wildcard; target := "draft";
     custom := {[ "form" := AdminBlogPostRenameForm ]} |}.

Definition retitle : Callable :=
  {| run := fun kw a =>
       match kw !! "title" with
       | Some t => (Returns RNone, <[ "title" := t ]> a)
       | None => (Raises (TypeError "retitle() missing 1 required argument: 'title'"), a)
       end;
     _django_fsm := Some {| field := "state";
                            transitions := TransDict [(Wildcard, retitle_transition)] |} |}.

(** [review] is declared twice: from [new] with the rename form, then
    from [draft] with the comment form. *)
Definition review_from_new : Transition :=
  {| name := "review"; source := SrcState "new"; target := "reviewed";
     custom := {[ "form" := AdminBlogPostRenameForm ]} |}.

Definition review_from_draft : Transition :=
  {| name := "review"; source := SrcState "draft"; target := "reviewed";
     custom := {[ "form" := ReviewCommentForm ]} |}.

Definition review : Callable :=
  {| run := fun kw a => (Returns RNone, set_state "reviewed" a);
     _django_fsm := Some {| field := "state";
                            transitions := TransDict [(SrcState "new", review_from_new);
                                                      (SrcState "draft", review_from_draft)] |} |}.

(** [signoff] is declared twice: from [new] without a form, then from
    [draft] with the rename form. *)
Definition signoff_from_new : Transition :=
  {| name := "signoff"; source := SrcState "new"; target := "signed"; custom := ∅ |}.

Definition signoff_from_draft : Transition :=
  {| name := "signoff"; source := SrcState "draft"; target := "signed";
     custom := {[ "form" := AdminBlogPostRenameForm ]} |}.

Definition signoff : Callable :=
  {| run := fun kw a => (Returns RNone, set_state "signed" a);
     _django_fsm := Some {| field := "state";
                            transitions := TransDict [(SrcState "new", signoff_from_new);
                                                      (SrcState "draft", signoff_from_draft)] |} |}.

(** The form views are reached on this instance. *)
Definition blog_post_forms : Instance :=
  {| pk := VInt 1;
     id_ := VInt 1;
     methods := {[ "retitle" := retitle; "review" := review; "signoff" := signoff ]};
     save_raises := fun _ => None |}.

(** The transition form, asked for and then posted. *)
Definition form_get_request : HttpRequest :=
  {| POST := ∅;
     user := "alice";
     path := "/admin/blog/post/1/transition/review/";
     method := "GET";
     preserved_filters := "" |}.

Definition form_post_request : HttpRequest :=
  {| POST := {[ "title" := "Hello again" ]};
     user := "alice";
     path := "/admin/blog/post/1/transition/retitle/";
     method := "POST";
     preserved_filters := "" |}.

(** Transitions as the accessor of a field returns them: without an
    ["admin"] entry, with a false one, with a true one. *)
Definition t_plain : Transition :=
  {| name := "publish"; source := SrcState "draft"; target := "published"; custom := ∅ |}.
Definition t_hidden : Transition :=
  {| name := "purge"; source := SrcState "draft"; target := "purged";
     custom := {[ "admin" := VBool false ]} |}.
Definition t_shown : Transition :=
  {| name := "archive"; source := SrcState "draft"; target := "archived";
     custom := {[ "admin" := VBool true ]} |}.
Definition t_approve : Transition :=
  {| name := "approve"; source := Wildcard; target := "approved";
     custom := {[ "admin" := VInt 1 ]} |}.

(** [get_available_user_<field>_transitions(user)]. *)
Definition accessor (ts : list Transition) : Callable :=
  {| run := fun kw a =>
       match kw !! "user" with
       | Some _ => (Returns (RTransitions ts), a)
       | None => (Raises (TypeError "missing 1 required positional argument: 'user'"), a)
       end;
     _django_fsm := None |}.

Definition workflow_avail (field_name : string) : list Transition :=
  if String.eqb field_name "state" then [t_plain; t_hidden; t_shown]
  else if String.eqb field_name "approval" then [t_approve]
  else [].

Definition workflow_post : Instance :=
  {| pk := VInt 7;
     id_ := VInt 7;
     methods :=
       {[ "get_available_user_state_transitions" := accessor (workflow_avail "state");
          "get_available_user_approval_transitions" := accessor (workflow_avail "approval") ]};
     save_raises := fun _ => None |}.

(** The admin class as its body builds it under given settings. *)
Definition workflow_admin (settings : gmap string PyVal) : FSMAdminMixin :=
  {| fsm_fields := ["state"; "approval"];
     default_disallow_transition := class_default_disallow_transition settings;
     app_label := "blog";
     model_name := "post";
     get_field := blog_fields;
     readonly_fields := [] |}.

Definition settings_force_permit : gmap string PyVal :=
  {[ "FSM_ADMIN_FORCE_PERMIT" := VBool true ]}.

(** The change page being asked for. *)
Definition change_get_request : HttpRequest :=
  {| POST := ∅;
     user := "alice";
     path := "/admin/blog/post/7/change/";
     method := "GET";
     preserved_filters := "" |}.

(** The calls the change view makes on [workflow_post]. *)
Definition workflow_calls : list Event :=
  [EvCall "get_available_user_approval_transitions" (kwargs_user change_get_request);
   EvCall "get_available_user_state_transitions" (kwargs_user change_get_request)].

(** [def recount(self, **kwargs)] whose body raises [TypeError]
    whatever it is called with. *)
Definition recount : Callable :=
  {| run := fun kw a => (Raises (TypeError "object of type 'NoneType' has no len()"), a);
     _django_fsm := state_meta [edge "recount" "draft" "counted" ∅] |}.


(** A blog post whose [save] is overridden with a faulty body. *)
Definition blog_post_faulty_save : Instance :=
  {| pk := VInt 1; id_ := VInt 1; methods := {[ "recount" := recount ]};
     save_raises := fun _ => Some (TypeError "save() argument must be str, not None") |}.

Definition blog_post_recount : Instance :=
  {| pk := VInt 1; id_ := VInt 1; methods := {[ "recount" := recount ]};
     save_raises := fun _ => None |}.

(** ** get_readonly_fields *)

Section readonly.
Variable self : FSMAdminMixin.

Lemma readonly_step_cases ro n :
  readonly_step self ro n =
    if decide (n ∈ ro) then ro
    else if is_protected self n then ro ++ [n] else ro.
Proof.
  unfold readonly_step, is_protected.
  destruct (decide (n ∈ ro)); [done|].
  destruct (get_field self !! n) as [f|]; done.
Qed.

Lemma occurrences_snoc_ne name n ro :
  n ≠ name → occurrences name (ro ++ [n]) = occurrences name ro.
Proof.
  intros Hne. unfold occurrences. rewrite count_occ_app. simpl.
  destruct (String.string_dec n name); [done | lia].
Qed.

Lemma occurrences_0 name ro : name ∉ ro → occurrences name ro = 0.
Proof.
  intros Hn. apply count_occ_not_In. by rewrite <- list_elem_of_In.
Qed.

Lemma occurrences_pos name ro : name ∈ ro → 1 ≤ occurrences name ro.
Proof.
  intros Hn. apply list_elem_of_In in Hn.
  apply (count_occ_In String.string_dec) in Hn. unfold occurrences. lia.
Qed.

(** The loop never drops a name and adds [name] only when it is absent,
    listed and protected. *)
Lemma readonly_loop_occurrences name l ro :
  occurrences name (foldl (readonly_step self) ro l) =
    if decide (name ∈ ro) then occurrences name ro
    else if decide (name ∈ l) then (if is_protected self name then 1 else 0)
    else 0.
Proof.
  revert ro. induction l as [|n l IH]; intros ro; simpl.
  - destruct (decide (name ∈ ro)); [done|].
    destruct (decide (name ∈ [])); [set_solver|]. by apply occurrences_0.
  - rewrite IH, readonly_step_cases.
    destruct (decide (n ∈ ro)) as [Hin|Hnin]; [|destruct (is_protected self n) eqn:Hp].
    + destruct (decide (name ∈ ro)); [done|].
      destruct (decide (name ∈ l)), (decide (name ∈ n :: l)); try done; set_solver.
    + destruct (decide (n = name)) as [->|Hne].
      * destruct (decide (name ∈ ro ++ [name])); [|set_solver].
        destruct (decide (name ∈ ro)); [set_solver|].
        destruct (decide (name ∈ name :: l)); [|set_solver]. rewrite Hp.
        unfold occurrences. rewrite count_occ_app. simpl.
        destruct (String.string_dec name name); [|done].
        fold (occurrences name ro). by rewrite occurrences_0.
      * rewrite occurrences_snoc_ne by done.
        destruct (decide (name ∈ ro ++ [n])), (decide (name ∈ ro)); try done; try set_solver.
        destruct (decide (name ∈ l)), (decide (name ∈ n :: l)); try done; set_solver.
    + destruct (decide (name ∈ ro)); [done|].
      destruct (decide (n = name)) as [->|Hne].
      * destruct (decide (name ∈ name :: l)); [|set_solver]. rewrite Hp.
        by destruct (decide (name ∈ l)).
      * destruct (decide (name ∈ l)), (decide (name ∈ n :: l)); try done; set_solver.
Qed.

Lemma readonly_loop_unchanged l ro :
  (∀ n, n ∈ l → n ∈ ro ∨ is_protected self n = false) →
  foldl (readonly_step self) ro l = ro.
Proof.
  revert ro. induction l as [|n l IH]; intros ro Hall; simpl; [done|].
  assert (readonly_step self ro n = ro) as ->.
  { rewrite readonly_step_cases. destruct (decide (n ∈ ro)); [done|].
    destruct (Hall n) as [?| ->]; [set_solver|done|done]. }
  apply IH. intros m Hm. apply Hall. set_solver.
Qed.

End readonly.

(** C5, as the code has it: a field name of [fsm_fields] that exists on
    the model with [protected=True] is in the returned tuple, and occurs
    there once when the superclass's tuple did not hold it and as often
    as in the superclass's tuple otherwise; a name that is already
    read-only, does not exist on the model or is not protected leaves
    the tuple built so far unchanged, and if every name of [fsm_fields]
    is such the superclass's tuple is returned as it is. *)
Theorem get_readonly_fields_protected (self : FSMAdminMixin) (field_name : string) :
  (field_name ∈ fsm_fields self → is_protected self field_name = true →
     field_name ∈ get_readonly_fields self ∧
     occurrences field_name (get_readonly_fields self) =
       Nat.max 1 (occurrences field_name (readonly_fields self))) ∧
  (∀ ro, field_name ∈ ro ∨ get_field self !! field_name = None ∨
         (∃ f, get_field self !! field_name = Some f ∧ default false (protected f) = false) →
         readonly_step self ro field_name = ro) ∧
  ((∀ n, n ∈ fsm_fields self → n ∈ readonly_fields self ∨ is_protected self n = false) →
     get_readonly_fields self = readonly_fields self).
Proof.
  split; [|split].
  - intros Hin Hprot.
    assert (occurrences field_name (get_readonly_fields self) =
              Nat.max 1 (occurrences field_name (readonly_fields self))) as Hocc.
    { unfold get_readonly_fields. rewrite readonly_loop_occurrences.
      destruct (decide (field_name ∈ readonly_fields self)) as [Hro|Hro].
      - apply occurrences_pos in Hro. lia.
      - rewrite decide_True by done. rewrite Hprot.
        rewrite (occurrences_0 field_name (readonly_fields self)) by done. done. }
    split; [|done].
    apply list_elem_of_In, (count_occ_In String.string_dec).
    fold (occurrences field_name (get_readonly_fields self)). lia.
  - intros ro H. rewrite readonly_step_cases.
    destruct (decide (field_name ∈ ro)); [done|].
    unfold is_protected. destruct H as [?|[->|(f & -> & ->)]]; done.
  - apply readonly_loop_unchanged.
Qed.

(** On [blog_admin]: [state] is protected and listed twice in
    [fsm_fields], [ghost] is not a field of the model. *)
Lemma get_readonly_fields_protected_witness :
  ("state" ∈ get_readonly_fields blog_admin ∧
   occurrences "state" (get_readonly_fields blog_admin) = 1) ∧
  readonly_step blog_admin ["title"] "ghost" = ["title"].
Proof.
  pose proof (get_readonly_fields_protected blog_admin "state") as (H1 & _ & _).
  pose proof (get_readonly_fields_protected blog_admin "ghost") as (_ & H2 & _).
  split.
  - apply H1; [|reflexivity]. unfold blog_admin; simpl. set_solver.
  - apply H2. right; left. reflexivity.
Defined.

(** C5 as worded fails: with [readonly_fields = ("state", "state")] the
    protected field [state] is returned twice, not exactly once. *)
Lemma get_readonly_fields_not_exactly_once :
  "state" ∈ fsm_fields twice_readonly_admin ∧
  is_protected twice_readonly_admin "state" = true ∧
  get_readonly_fields twice_readonly_admin = ["state"; "state"] ∧
  occurrences "state" (get_readonly_fields twice_readonly_admin) ≠ 1.
Proof.
  split; [unfold twice_readonly_admin; simpl; set_solver|].
  split; [reflexivity|]. split; [reflexivity|]. vm_compute. lia.
Qed.

(** ** The invocation block of response_change *)

Lemma after_after w a1 evs1 a2 evs2 :
  after (after w a1 evs1) a2 evs2 = after w a2 (evs1 ++ evs2).
Proof. unfold after. simpl. by rewrite <- (assoc_L (++)). Qed.

Lemma after_nil w : after w (attrs w) [] = w.
Proof. destruct w. unfold after. simpl. by rewrite (right_id_L [] (++)). Qed.

Lemma call_method fn c kw w o a' :
  run c kw (attrs w) = (o, a') →
  call fn (AMethod c) kw w =
    (match o with Returns r => Ok r | Raises e => Err e end,
     after w a' [EvCall fn kw]).
Proof. intros H. unfold call. rewrite H. by destruct o. Qed.

(** One turn of the loop of lines 145-155. *)
Lemma call_until_accepted_cons fn c kw rest w o a' :
  run c kw (attrs w) = (o, a') →
  call_until_accepted fn ((AMethod c, kw) :: rest) w =
    if raises_TypeError o
    then call_until_accepted fn rest (after w a' [EvCall fn kw])
    else (result_of o, after w a' [EvCall fn kw]).
Proof.
  intros H. simpl. unfold bind, attempt. rewrite (call_method _ _ _ _ _ _ H).
  destruct o as [r|e]; [done|]. by destruct e.
Qed.

Lemma FSM_LOG_ENABLED_true ms : "django_fsm_log" ∈ ms → FSM_LOG_ENABLED ms = true.
Proof. intros H. unfold FSM_LOG_ENABLED. by rewrite decide_True. Qed.

Lemma FSM_LOG_ENABLED_false ms : "django_fsm_log" ∉ ms → FSM_LOG_ENABLED ms = false.
Proof. intros H. unfold FSM_LOG_ENABLED. by rewrite decide_False. Qed.

(** With the plugin, the block is the loop over the three shapes. *)
Lemma invoke_transition_logged env request fn c w :
  FSM_LOG_ENABLED (modules env) = true →
  invoke_transition env request fn (AMethod c) w =
    call_until_accepted fn
      [(AMethod c, kwargs_request_by request); (AMethod c, kwargs_by request);
       (AMethod c, ∅)] w.
Proof. intros H. unfold invoke_transition. rewrite H. done. Qed.

Lemma invoke_transition_plain env request fn c w o a' :
  FSM_LOG_ENABLED (modules env) = false →
  run c ∅ (attrs w) = (o, a') →
  invoke_transition env request fn (AMethod c) w = (result_of o, after w a' [EvCall fn ∅]).
Proof.
  intros H Hr. unfold invoke_transition. rewrite H. unfold bind.
  rewrite (call_method _ _ _ _ _ _ Hr). by destruct o.
Qed.



Lemma only_calls_refl w : only_calls w w.
Proof. exists []. by rewrite (right_id_L [] (++)). Qed.

Lemma only_calls_trans w1 w2 w3 :
  only_calls w1 w2 → only_calls w2 w3 → only_calls w1 w3.
Proof.
  intros (c1 & H1 & F1) (c2 & H2 & F2). exists (c1 ++ c2). split.
  - by rewrite H2, H1, (assoc_L (++)).
  - by rewrite forallb_app, F1, F2.
Qed.

Lemma only_calls_no_save w w1 :
  only_calls w w1 → ∃ calls, trace w1 = trace w ++ calls ∧ EvSave ∉ calls.
Proof.
  intros (calls & H & F). exists calls. split; [done|].
  intros Hin. rewrite forallb_forall in F.
  apply list_elem_of_In, F in Hin. done.
Qed.

Lemma call_only_calls fn f kw w r w1 :
  call fn f kw w = (r, w1) → only_calls w w1.
Proof.
  unfold call. destruct f as [c|v].
  - destruct (run c kw (attrs w)) as [o a'] eqn:Hr.
    intros H. exists [EvCall fn kw]. split; [|done].
    destruct o; by inversion H.
  - intros H. inversion H; subst. apply only_calls_refl.
Qed.

Lemma call_until_accepted_only_calls fn fns w r w1 :
  call_until_accepted fn fns w = (r, w1) → only_calls w w1.
Proof.
  revert w. induction fns as [|[f kw] fns IH]; intros w; simpl.
  - intros H. inversion H; subst. apply only_calls_refl.
  - unfold bind, attempt.
    destruct (call fn f kw w) as [r0 w0] eqn:Hc.
    apply call_only_calls in Hc.
    destruct r0 as [?|e].
    + intros H. by inversion H; subst.
    + destruct e; try (intros H; by inversion H; subst).
      intros H. apply IH in H. by eapply only_calls_trans.
Qed.

Lemma partial_world f kw w r w1 : partial f kw w = (r, w1) → w1 = w.
Proof. destruct f; intros H; by inversion H. Qed.

(** The invocation block only calls: it neither saves nor reports. *)
Lemma invoke_transition_only_calls env request fn f w r w1 :
  invoke_transition env request fn f w = (r, w1) → only_calls w w1.
Proof.
  unfold invoke_transition. destruct (FSM_LOG_ENABLED (modules env)).
  - unfold bind.
    destruct (partial f (kwargs_request_by request) w) as [r1 w1'] eqn:H1.
    apply partial_world in H1 as ->.
    destruct r1 as [fn1|e]; [|intros H; inversion H; subst; apply only_calls_refl].
    destruct (partial f (kwargs_by request) w) as [r2 w2'] eqn:H2.
    apply partial_world in H2 as ->.
    destruct r2 as [fn2|e]; [|intros H; inversion H; subst; apply only_calls_refl].
    apply call_until_accepted_only_calls.
  - unfold bind. destruct (call fn f ∅ w) as [r0 w0] eqn:Hc.
    apply call_only_calls in Hc.
    destruct r0; intros H; by inversion H; subst.
Qed.

(** Looking up the transition reads the instance and changes nothing. *)
Lemma get_fsm_transition_world f w r w1 :
  get_fsm_transition f w = (r, w1) → w1 = w.
Proof.
  unfold get_fsm_transition. destruct (django_fsm_of f) as [meta|].
  - unfold bind, get_state. destruct (attrs w !! field meta); intros H; by inversion H.
  - intros H; by inversion H.
Qed.

Lemma get_fsm_transition_custom_world f w r w1 :
  get_fsm_transition_custom f w = (r, w1) → w1 = w.
Proof.
  unfold get_fsm_transition_custom, bind.
  destruct (get_fsm_transition f w) as [r0 w0] eqn:H0.
  apply get_fsm_transition_world in H0 as ->.
  destruct r0; intros H; by inversion H.
Qed.

Lemma getattr_method obj n c w :
  methods obj !! n = Some c → getattr obj n w = (Ok (AMethod c), w).
Proof. intros H. unfold getattr. by rewrite H. Qed.

Lemma truthy_name n : n ≠ "" → truthy (VStr n) = true.
Proof. intros H. simpl. by destruct n. Qed.

Lemma message_user_run env msg lvl w :
  message_user env msg lvl w =
    (match message_failure env lvl msg with
     | None => Ok tt
     | Some e => Err e
     end, after w (attrs w) [EvMessage lvl msg]).
Proof.
  unfold message_user, bind, emit, returning, after. simpl.
  by destruct (message_failure env lvl msg).
Qed.

Lemma save_run obj w :
  save obj w =
    (match save_raises obj (attrs w) with
     | None => Ok tt
     | Some e => Err e
     end, after w (attrs w) [EvSave]).
Proof.
  unfold save, bind, emit, returning, after. simpl.
  by destruct (save_raises obj (attrs w)).
Qed.

(** A message followed by the redirect of [get_fsm_response]. *)
Lemma message_then_redirect env request obj msg lvl w :
  (message_user env msg lvl ;; get_fsm_response request obj) w =
    (answered (message_failure env lvl msg) (fsm_redirect request),
     after w (attrs w) [EvMessage lvl msg]).
Proof.
  unfold bind. rewrite message_user_run.
  by destruct (message_failure env lvl msg).
Qed.

(** What [response_change] does once the attribute is found and no form
    is asked for: the [try] statement of lines 143-180 followed by the
    redirect. *)
Lemma response_change_invoked self env request obj n func cst w r w1 :
  POST request !! fsm_post_param = Some n → n ≠ "" →
  getattr obj n w = (Ok func, w) →
  get_fsm_transition_custom func w = (Ok cst, w) →
  truthy (dict_get cst "form") = false →
  invoke_transition env request n func w = (r, w1) →
  response_change self env request obj w =
    match r with
    | Err (TransitionNotAllowed _) =>
        (answered (message_failure env ERROR (fsm_transition_not_allowed_msg n))
                  (fsm_redirect request),
         after w1 (attrs w1) [EvMessage ERROR (fsm_transition_not_allowed_msg n)])
    | Err (ConcurrentTransition m) =>
        (answered (message_failure env ERROR (fsm_transition_error_msg n m))
                  (fsm_redirect request),
         after w1 (attrs w1) [EvMessage ERROR (fsm_transition_error_msg n m)])
    | Err e => (Err e, w1)
    | Ok _ =>
        match save_raises obj (attrs w1) with
        | Some e => (Err e, after w1 (attrs w1) [EvSave])
        | None =>
            (answered (message_failure env INFO (fsm_transition_success_msg n))
                      (fsm_redirect request),
             after w1 (attrs w1) [EvSave; EvMessage INFO (fsm_transition_success_msg n)])
        end
    end.
Proof.
  intros Hpost Hn Hget Hcst Hform Hinv.
  unfold response_change. rewrite Hpost, (truthy_name _ Hn).
  unfold response_change_transition, bind, attempt at 1. rewrite Hget, Hcst, Hform.
  unfold attempt. rewrite Hinv.
  destruct r as [[]|e]; [|destruct e]; try done.
  - rewrite save_run. destruct (save_raises obj (attrs w1)); [done|].
    rewrite message_user_run. simpl. rewrite after_after.
    by destruct (message_failure env INFO (fsm_transition_success_msg n)).
  - rewrite message_user_run.
    by destruct (message_failure env ERROR (fsm_transition_not_allowed_msg n)).
  - rewrite message_user_run. simpl.
    by destruct (message_failure env ERROR (fsm_transition_error_msg n msg)).
Qed.

(** ** response_change: reporting and propagation *)

(** The invocation block makes the calls that [invocation] spells
    out. *)
Lemma invocation_invoke_transition env request fn c w kws o a :
  invocation env request c (attrs w) kws o a →
  invoke_transition env request fn (AMethod c) w =
    (result_of o, after w a (EvCall fn <$> kws)).
Proof.
  intros [(Hlog & -> & Hrun)|(Hlog & Hty & Hcases)].
  - apply FSM_LOG_ENABLED_false in Hlog.
    by rewrite (invoke_transition_plain _ _ _ _ _ _ _ Hlog Hrun).
  - apply FSM_LOG_ENABLED_true in Hlog.
    rewrite (invoke_transition_logged _ _ _ _ _ Hlog).
    change (kwargs_request_by request)
      with ({[ "request" := VRequest request; "by" := VUser (user request) ]} : Kwargs).
    change (kwargs_by request) with ({[ "by" := VUser (user request) ]} : Kwargs).
    destruct Hcases as [(-> & H1)|[(m1 & a1 & -> & H1 & H2)
                                  |(m1 & m2 & a1 & a2 & -> & H1 & H2 & H3)]].
    + rewrite (call_until_accepted_cons _ _ _ _ _ _ _ H1). by rewrite Hty.
    + rewrite (call_until_accepted_cons _ _ _ _ _ _ _ H1).
      cbn [raises_TypeError is_TypeError].
      rewrite (call_until_accepted_cons fn c _ _ (after w a1 _) _ _ H2).
      by rewrite Hty, after_after.
    + rewrite (call_until_accepted_cons _ _ _ _ _ _ _ H1).
      cbn [raises_TypeError is_TypeError].
      rewrite (call_until_accepted_cons fn c _ _ (after w a1 _) _ _ H2).
      cbn [raises_TypeError is_TypeError].
      rewrite (call_until_accepted_cons fn c _ _ (after (after w a1 _) a2 _) _ _ H3).
      by rewrite Hty, !after_after.
Qed.

(** C1: a POST that names an existing transition which is invoked,
    the calls made on the method being [kws] with last outcome [o].
    If that outcome is [TransitionNotAllowed], [message_user] is called
    with the not-allowed message at level ERROR; if it is
    [ConcurrentTransition], with the error message that holds the
    exception's text; in both cases the trace holds the calls and then
    the message, so [obj.save()] is not called.  If the call returns,
    [obj.save()] is called next and then [message_user] with the success
    message at level INFO.  The handler answers with the redirect when
    the last collaborator called returned, with its exception
    otherwise. *)
Theorem response_change_reports (self : FSMAdminMixin) (env : Env)
    (request : HttpRequest) (obj : Instance) (n : string) (c : Callable)
    (cst : gmap string PyVal) (w : World)
    (kws : list Kwargs) (o : Outcome) (a : gmap string PyVal) :
  POST request !! fsm_post_param = Some n → n ≠ "" →
  methods obj !! n = Some c →
  get_fsm_transition_custom (AMethod c) w = (Ok cst, w) →
  truthy (dict_get cst "form") = false →
  invocation env request c (attrs w) kws o a →
  let calls := EvCall n <$> kws in
  let redirect :=
    HttpResponseRedirect (UrlPreserved (preserved_filters request) (path request)) in
  (∀ m, o = Raises (TransitionNotAllowed m) →
     let msg := "FSM transition '" +:+ n +:+ "' is not allowed." in
     response_change self env request obj w =
       (answered (message_failure env ERROR msg) redirect,
        {| attrs := a; trace := trace w ++ calls ++ [EvMessage ERROR msg] |})) ∧
  (∀ m, o = Raises (ConcurrentTransition m) →
     let msg := "FSM transition '" +:+ n +:+ "' failed: " +:+ m +:+ "." in
     response_change self env request obj w =
       (answered (message_failure env ERROR msg) redirect,
        {| attrs := a; trace := trace w ++ calls ++ [EvMessage ERROR msg] |})) ∧
  (∀ r, o = Returns r →
     let msg := "FSM transition '" +:+ n +:+ "' succeeded." in
     response_change self env request obj w =
       match save_raises obj a with
       | Some e => (Err e, {| attrs := a; trace := trace w ++ calls ++ [EvSave] |})
       | None =>
           (answered (message_failure env INFO msg) redirect,
            {| attrs := a;
               trace := trace w ++ calls ++ [EvSave; EvMessage INFO msg] |})
       end).
Proof.
  intros Hpost Hn Hm Hcst Hform Hinv calls redirect.
  apply (invocation_invoke_transition _ _ n) in Hinv.
  pose proof (response_change_invoked self env request obj n _ cst w _ _
                Hpost Hn (getattr_method _ _ _ _ Hm) Hcst Hform Hinv) as Hrc.
  unfold after in Hrc. simpl in Hrc. fold calls in Hrc.
  repeat split; intros ? ->; intros msg; simpl in Hrc;
    rewrite <- ?(assoc_L (++)) in Hrc; exact Hrc.
Qed.

(** With the plugin, [archive] is refused on the first call; without
    it, [submit] loses the race for the state; with it, [publish]
    refuses [request], is called again and returns. *)
Lemma response_change_reports_witness :
  response_change blog_admin env_logged (post_request "archive") blog_post draft_world =
    (Ok (fsm_redirect (post_request "archive")),
     {| attrs := attrs draft_world;
        trace := [EvCall "archive"
                    {[ "request" := VRequest (post_request "archive");
                       "by" := VUser "alice" ]};
                  EvMessage ERROR "FSM transition 'archive' is not allowed."] |}) ∧
  response_change blog_admin env_plain (post_request "submit") blog_post draft_world =
    (Ok (fsm_redirect (post_request "submit")),
     {| attrs := attrs draft_world;
        trace := [EvCall "submit" ∅;
                  EvMessage ERROR
                    "FSM transition 'submit' failed: state has changed."] |}) ∧
  response_change blog_admin env_logged (post_request "publish") blog_post draft_world =
    (Ok (fsm_redirect (post_request "publish")),
     {| attrs := set_state "published" (attrs draft_world);
        trace := [EvCall "publish"
                    {[ "request" := VRequest (post_request "publish");
                       "by" := VUser "alice" ]};
                  EvCall "publish" {[ "by" := VUser "alice" ]};
                  EvSave;
                  EvMessage INFO "FSM transition 'publish' succeeded."] |}).
Proof.
  split; [|split].
  - destruct (response_change_reports blog_admin env_logged (post_request "archive")
                blog_post "archive" archive ∅ draft_world
                [{[ "request" := VRequest (post_request "archive");
                    "by" := VUser "alice" ]}]
                (Raises (TransitionNotAllowed "conditions not met"))
                (attrs draft_world)) as (H & _ & _);
      [reflexivity | discriminate | reflexivity | reflexivity | reflexivity | |].
    + right. split; [set_solver|]. split; [reflexivity|]. left. split; reflexivity.
    + exact (H _ eq_refl).
  - destruct (response_change_reports blog_admin env_plain (post_request "submit")
                blog_post "submit" submit ∅ draft_world [∅]
                (Raises (ConcurrentTransition "state has changed"))
                (attrs draft_world)) as (_ & H & _);
      [reflexivity | discriminate | reflexivity | reflexivity | reflexivity | |].
    + left. split; [set_solver|]. split; reflexivity.
    + exact (H _ eq_refl).
  - destruct (response_change_reports blog_admin env_logged (post_request "publish")
                blog_post "publish" publish ∅ draft_world
                [{[ "request" := VRequest (post_request "publish");
                    "by" := VUser "alice" ]};
                 {[ "by" := VUser "alice" ]}]
                (Returns RNone)
                (set_state "published" (attrs draft_world))) as (_ & _ & H);
      [reflexivity | discriminate | reflexivity | reflexivity | reflexivity | |].
    + right. split; [set_solver|]. split; [reflexivity|]. right. left.
      eexists _, _. split; [reflexivity|]. split; reflexivity.
    + exact (H _ eq_refl).
Defined.

(** The loop swallows every [TypeError]: none leaves it. *)
Lemma call_until_accepted_no_TypeError fn fns w e w1 :
  call_until_accepted fn fns w = (Err e, w1) → is_TypeError e = false.
Proof.
  revert w. induction fns as [|[f kw] fns IH]; intros w; simpl; [done|].
  unfold bind, attempt. destruct (call fn f kw w) as [[?|e0] w0]; [done|].
  destruct e0; try (intros H; by inversion H). apply IH.
Qed.

(** An exception that leaves the invocation block and is not one of the
    two handled ones leaves [response_change] as it is, in the world the
    block left. *)
Lemma response_change_block_raises self env request obj n c cst w e w1 :
  POST request !! fsm_post_param = Some n → n ≠ "" →
  methods obj !! n = Some c →
  get_fsm_transition_custom (AMethod c) w = (Ok cst, w) →
  truthy (dict_get cst "form") = false →
  (∀ m, e ≠ TransitionNotAllowed m) → (∀ m, e ≠ ConcurrentTransition m) →
  invoke_transition env request n (AMethod c) w = (Err e, w1) →
  response_change self env request obj w = (Err e, w1).
Proof.
  intros Hpost Hn Hm Hcst Hform Hna Hct Hinv.
  rewrite (response_change_invoked self env request obj n _ cst w _ w1
             Hpost Hn (getattr_method _ _ _ _ Hm) Hcst Hform Hinv).
  destruct e; try done; [by destruct (Hna msg) | by destruct (Hct msg)].
Qed.

(** C2, as the code has it: an exception raised by the invoked
    transition, other than [TransitionNotAllowed],
    [ConcurrentTransition] and, with the plugin, [TypeError], leaves
    [response_change] unchanged, and the trace then holds the calls made
    and nothing else: no [obj.save()].  Without the plugin this is the
    exception of the only call, [TypeError] included; with the plugin it
    is the exception of the first, second or third call, the calls
    before it having raised [TypeError]. *)
Theorem response_change_propagates (self : FSMAdminMixin) (env : Env)
    (request : HttpRequest) (obj : Instance) (n : string) (c : Callable)
    (cst : gmap string PyVal) (w : World) (e : Exn) :
  POST request !! fsm_post_param = Some n → n ≠ "" →
  methods obj !! n = Some c →
  get_fsm_transition_custom (AMethod c) w = (Ok cst, w) →
  truthy (dict_get cst "form") = false →
  (∀ m, e ≠ TransitionNotAllowed m) → (∀ m, e ≠ ConcurrentTransition m) →
  let kw1 := kwargs_request_by request in
  let kw2 := kwargs_by request in
  (FSM_LOG_ENABLED (modules env) = false →
     ∀ a1, run c ∅ (attrs w) = (Raises e, a1) →
       response_change self env request obj w =
         (Err e, {| attrs := a1; trace := trace w ++ [EvCall n ∅] |})) ∧
  (FSM_LOG_ENABLED (modules env) = true → is_TypeError e = false →
     (∀ a1, run c kw1 (attrs w) = (Raises e, a1) →
        response_change self env request obj w =
          (Err e, {| attrs := a1; trace := trace w ++ [EvCall n kw1] |})) ∧
     (∀ m1 a1 a2,
        run c kw1 (attrs w) = (Raises (TypeError m1), a1) →
        run c kw2 a1 = (Raises e, a2) →
        response_change self env request obj w =
          (Err e, {| attrs := a2; trace := trace w ++ [EvCall n kw1; EvCall n kw2] |})) ∧
     (∀ m1 m2 a1 a2 a3,
        run c kw1 (attrs w) = (Raises (TypeError m1), a1) →
        run c kw2 a1 = (Raises (TypeError m2), a2) →
        run c ∅ a2 = (Raises e, a3) →
        response_change self env request obj w =
          (Err e, {| attrs := a3;
                     trace := trace w ++ [EvCall n kw1; EvCall n kw2; EvCall n ∅] |}))).
Proof.
  intros Hpost Hn Hm Hcst Hform Hna Hct kw1 kw2.
  pose proof (response_change_block_raises self env request obj n c cst w e) as Hblock.
  split.
  - intros Hlog a1 Hrun. eapply Hblock; try done.
    by rewrite (invoke_transition_plain _ _ _ _ _ _ _ Hlog Hrun).
  - intros Hlog Hty. repeat split.
    + intros a1 H1. eapply Hblock; try done.
      rewrite (invoke_transition_logged _ _ _ _ _ Hlog).
      rewrite (call_until_accepted_cons _ _ _ _ _ _ _ H1).
      cbn [raises_TypeError result_of]. by rewrite Hty.
    + intros m1 a1 a2 H1 H2. eapply Hblock; try done.
      rewrite (invoke_transition_logged _ _ _ _ _ Hlog).
      rewrite (call_until_accepted_cons _ _ _ _ _ _ _ H1).
      cbn [raises_TypeError is_TypeError].
      rewrite (call_until_accepted_cons n c kw2 _ (after w a1 _) _ a2 H2).
      cbn [raises_TypeError result_of]. rewrite Hty, after_after. done.
    + intros m1 m2 a1 a2 a3 H1 H2 H3. eapply Hblock; try done.
      rewrite (invoke_transition_logged _ _ _ _ _ Hlog).
      rewrite (call_until_accepted_cons _ _ _ _ _ _ _ H1).
      cbn [raises_TypeError is_TypeError].
      rewrite (call_until_accepted_cons n c kw2 _ (after w a1 _) _ a2 H2).
      cbn [raises_TypeError is_TypeError].
      rewrite (call_until_accepted_cons n c ∅ _ (after (after w a1 _) a2 _) _ a3 H3).
      cbn [raises_TypeError result_of]. rewrite Hty, !after_after. done.
Qed.

(** The [ValueError] of [purge] leaves [response_change], nothing saved. *)
Lemma response_change_propagates_witness :
  response_change blog_admin env_logged (post_request "purge") blog_post draft_world =
    (Err (OtherError "ValueError" "nothing to purge"),
     {| attrs := attrs draft_world;
        trace := [EvCall "purge" (kwargs_request_by (post_request "purge"))] |}).
Proof.
  destruct (response_change_propagates blog_admin env_logged (post_request "purge")
              blog_post "purge" purge ∅ draft_world
              (OtherError "ValueError" "nothing to purge"))
    as [_ Hlogged];
    [reflexivity | discriminate | reflexivity | reflexivity | reflexivity
    | discriminate | discriminate |].
  destruct (Hlogged eq_refl eq_refl) as (Hfirst & _ & _).
  exact (Hfirst (attrs draft_world) eq_refl).
Defined.

(** C2 as worded fails: with the plugin, the [TypeError] raised by the
    body of [audit] (on both calls that pass [by]) is swallowed, the
    third call returns, [obj.save()] runs and the handler answers with
    the success message. *)
Lemma response_change_swallows_TypeError :
  run audit (kwargs_request_by (post_request "audit")) (attrs draft_world) =
    (Raises (TypeError "Object of type User is not JSON serializable"), attrs draft_world) ∧
  response_change blog_admin env_logged (post_request "audit") blog_post draft_world =
    (Ok (fsm_redirect (post_request "audit")),
     {| attrs := set_state "audited" (attrs draft_world);
        trace := [EvCall "audit" (kwargs_request_by (post_request "audit"));
                  EvCall "audit" (kwargs_by (post_request "audit"));
                  EvCall "audit" ∅;
                  EvSave;
                  EvMessage INFO "FSM transition 'audit' succeeded."] |}).
Proof. split; reflexivity. Qed.

(** With the plugin, a transition that raises [TypeError] on each of
    the three calls leaves the loop without [break]: the [else] of the
    outer [try] runs, [obj.save()] is called and the success message
    is reported, the transition never having returned. *)
Example response_change_after_three_TypeErrors :
  response_change blog_admin env_logged (post_request "recount") blog_post_recount
      draft_world =
    (Ok (fsm_redirect (post_request "recount")),
     {| attrs := attrs draft_world;
        trace := [EvCall "recount" (kwargs_request_by (post_request "recount"));
                  EvCall "recount" (kwargs_by (post_request "recount"));
                  EvCall "recount" ∅;
                  EvSave;
                  EvMessage INFO "FSM transition 'recount' succeeded."] |}).
Proof. reflexivity. Qed.

(** ** response_change: the attribute that does not exist *)

(** C8: when [_fsm_transition_to] names an attribute the object does not
    have, [response_change] calls [message_user] with the not-valid
    message at level ERROR, calls and saves nothing, and redirects (when
    [message_user] raised, its exception is the answer). *)
Theorem response_change_not_valid (self : FSMAdminMixin) (env : Env)
    (request : HttpRequest) (obj : Instance) (n : string) (w : World) :
  POST request !! fsm_post_param = Some n → n ≠ "" →
  methods obj !! n = None → attrs w !! n = None →
  response_change self env request obj w =
    (match message_failure env ERROR ("FSM transition '" +:+ n +:+ "' is not a valid.") with
     | None =>
         Ok (HttpResponseRedirect (UrlPreserved (preserved_filters request) (path request)))
     | Some e => Err e
     end,
     {| attrs := attrs w;
        trace := trace w ++
          [EvMessage ERROR ("FSM transition '" +:+ n +:+ "' is not a valid.")] |}).
Proof.
  intros Hpost Hn Hm Ha.
  unfold response_change. rewrite Hpost, (truthy_name _ Hn).
  unfold response_change_transition, bind at 1, attempt, getattr. rewrite Hm, Ha.
  cbv iota beta. apply message_then_redirect.
Qed.

(** [vanish] is no attribute of the blog post. *)
Lemma response_change_not_valid_witness :
  response_change blog_admin env_logged (post_request "vanish") blog_post draft_world =
    (Ok (fsm_redirect (post_request "vanish")),
     {| attrs := attrs draft_world;
        trace := [EvMessage ERROR "FSM transition 'vanish' is not a valid."] |}).
Proof.
  apply (response_change_not_valid blog_admin env_logged (post_request "vanish")
           blog_post "vanish" draft_world);
    [reflexivity | discriminate | reflexivity | reflexivity].
Defined.

Lemma append_cancel (s a b : string) : s +:+ a = s +:+ b → a = b.
Proof. induction s as [|ch s IH]; simpl; [done|]. intros H. inversion H. auto. Qed.

(** The not-valid message is none of the three other messages. *)
Lemma not_valid_msg_distinct n :
  fsm_transition_not_valid_msg n ≠ fsm_transition_not_allowed_msg n ∧
  fsm_transition_not_valid_msg n ≠ fsm_transition_success_msg n ∧
  ∀ m, fsm_transition_not_valid_msg n ≠ fsm_transition_error_msg n m.
Proof.
  unfold fsm_transition_not_valid_msg, fsm_transition_not_allowed_msg,
    fsm_transition_success_msg, fsm_transition_error_msg.
  split; [|split]; [| |intros m]; intros H;
    apply append_cancel, append_cancel in H; discriminate H.
Qed.

Lemma getattr_world obj n w r w1 : getattr obj n w = (r, w1) → w1 = w.
Proof.
  unfold getattr. destruct (methods obj !! n); [by inversion 1|].
  destruct (attrs w !! n); by inversion 1.
Qed.

Lemma getattr_error obj n w e w1 :
  getattr obj n w = (Err e, w1) →
  e = AttributeError n ∧ methods obj !! n = None ∧ attrs w !! n = None.
Proof.
  unfold getattr. destruct (methods obj !! n); [by inversion 1|].
  destruct (attrs w !! n); by inversion 1.
Qed.

(** The branch of lines 119-182 as a decision tree over what its
    collaborators answer. *)
Lemma response_change_transition_cases self env request obj n w :
  response_change_transition self env request obj n w =
    match getattr obj n w with
    | (Err (AttributeError _), _) =>
        (answered (message_failure env ERROR (fsm_transition_not_valid_msg n))
                  (fsm_redirect request),
         after w (attrs w) [EvMessage ERROR (fsm_transition_not_valid_msg n)])
    | (Err e, _) => (Err e, w)
    | (Ok func, _) =>
        match get_fsm_transition_custom func w with
        | (Err e, _) => (Err e, w)
        | (Ok cst, _) =>
            if truthy (dict_get cst "form")
            then (Ok (HttpResponseRedirect (transition_url self obj n)), w)
            else
              let '(r, w1) := invoke_transition env request n func w in
              match r with
              | Err (TransitionNotAllowed _) =>
                  (answered
                     (message_failure env ERROR (fsm_transition_not_allowed_msg n))
                     (fsm_redirect request),
                   after w1 (attrs w1)
                     [EvMessage ERROR (fsm_transition_not_allowed_msg n)])
              | Err (ConcurrentTransition m) =>
                  (answered
                     (message_failure env ERROR (fsm_transition_error_msg n m))
                     (fsm_redirect request),
                   after w1 (attrs w1)
                     [EvMessage ERROR (fsm_transition_error_msg n m)])
              | Err e => (Err e, w1)
              | Ok _ =>
                  match save_raises obj (attrs w1) with
                  | Some e => (Err e, after w1 (attrs w1) [EvSave])
                  | None =>
                      (answered
                         (message_failure env INFO (fsm_transition_success_msg n))
                         (fsm_redirect request),
                       after w1 (attrs w1)
                         [EvSave; EvMessage INFO (fsm_transition_success_msg n)])
                  end
              end
        end
    end.
Proof.
  unfold response_change_transition, bind at 1, attempt at 1.
  destruct (getattr obj n w) as [rg wg] eqn:Hget.
  pose proof (getattr_world _ _ _ _ _ Hget) as ->.
  destruct rg as [func|e].
  - unfold bind at 1.
    destruct (get_fsm_transition_custom func w) as [rc wc] eqn:Hc.
    pose proof (get_fsm_transition_custom_world _ _ _ _ Hc) as ->.
    destruct rc as [cst|e]; [|done].
    destruct (truthy (dict_get cst "form")); [done|].
    unfold bind at 1, attempt.
    destruct (invoke_transition env request n func w) as [r w1].
    destruct r as [[]|e]; [|destruct e]; try done.
    + unfold bind. rewrite save_run. destruct (save_raises obj (attrs w1)); [done|].
      rewrite message_user_run. simpl. rewrite after_after.
      by destruct (message_failure env INFO (fsm_transition_success_msg n)).
    + apply message_then_redirect.
    + apply message_then_redirect.
  - apply getattr_error in Hget as (-> & _ & _). apply message_then_redirect.
Qed.

(** With the attribute found, [response_change] calls, then at most
    saves and reports one of the three other messages. *)
Lemma response_change_transition_found self env request obj n func w r w' :
  getattr obj n w = (Ok func, w) →
  response_change_transition self env request obj n w = (r, w') →
  ∃ calls tail, trace w' = trace w ++ calls ++ tail ∧
    forallb is_call calls = true ∧
    (tail = [] ∨
     tail = [EvSave] ∨
     tail = [EvMessage ERROR (fsm_transition_not_allowed_msg n)] ∨
     (∃ m, tail = [EvMessage ERROR (fsm_transition_error_msg n m)]) ∨
     tail = [EvSave; EvMessage INFO (fsm_transition_success_msg n)]).
Proof.
  intros Hget. rewrite response_change_transition_cases, Hget.
  assert (∀ evs, trace w ++ [] ++ evs = trace w ++ evs) as Hnil by done.
  destruct (get_fsm_transition_custom func w) as [[cst|e] wc].
  2:{ intros H. inversion H; subst. exists [], []. rewrite !(right_id_L [] (++)). auto. }
  destruct (truthy (dict_get cst "form")).
  { intros H. inversion H; subst. exists [], []. rewrite !(right_id_L [] (++)). auto. }
  destruct (invoke_transition env request n func w) as [ri wi] eqn:Hi.
  pose proof (invoke_transition_only_calls _ _ _ _ _ _ _ Hi) as (calls & Htr & Hcalls).
  destruct ri as [[]|e]; [destruct (save_raises obj (attrs wi))|destruct e];
    intros H; inversion H; subst; clear H; simpl; rewrite ?Htr; exists calls.
  - exists [EvSave]. rewrite <- !(assoc_L (++)). auto.
  - exists [EvSave; EvMessage INFO (fsm_transition_success_msg n)].
    rewrite <- !(assoc_L (++)). auto 7.
  - exists []. rewrite (right_id_L [] (++)). auto.
  - exists []. rewrite (right_id_L [] (++)). auto.
  - exists []. rewrite (right_id_L [] (++)). auto.
  - exists []. rewrite (right_id_L [] (++)). auto.
  - exists []. rewrite (right_id_L [] (++)). auto.
  - exists [EvMessage ERROR (fsm_transition_not_allowed_msg n)].
    rewrite <- !(assoc_L (++)). auto 6.
  - exists [EvMessage ERROR (fsm_transition_error_msg n msg)].
    rewrite <- !(assoc_L (++)). split; [done|]. split; [done|].
    right; right; right; left. by exists msg.
  - exists []. rewrite (right_id_L [] (++)). auto.
Qed.

(** The block starts by calling the method with the first shape. *)
Lemma invoke_transition_first_call env request fn c w r w1 :
  invoke_transition env request fn (AMethod c) w = (r, w1) →
  ∃ calls, trace w1 = trace w ++ EvCall fn (first_kwargs env request) :: calls.
Proof.
  unfold first_kwargs.
  destruct (run c (first_kwargs env request) (attrs w)) as [o a'] eqn:Hrun.
  unfold first_kwargs in Hrun.
  destruct (FSM_LOG_ENABLED (modules env)) eqn:Hlog.
  - rewrite (invoke_transition_logged _ _ _ _ _ Hlog).
    rewrite (call_until_accepted_cons _ _ _ _ _ _ _ Hrun).
    destruct (raises_TypeError o).
    + intros H. apply call_until_accepted_only_calls in H as (calls & Htr & _).
      exists calls. rewrite Htr. simpl. by rewrite <- (assoc_L (++)).
    + intros H. inversion H; subst. by exists [].
  - rewrite (invoke_transition_plain _ _ _ _ _ _ _ Hlog Hrun).
    intros H. inversion H; subst. by exists [].
Qed.

(** C10: [response_change] reports the not-valid message only when the
    attribute named by [_fsm_transition_to] does not exist; a method that
    is not an FSM transition has empty custom metadata and is called
    like a transition; [fsm_transition_view] answers 400 for an
    attribute without [_django_fsm], calling nothing. *)
Theorem not_valid_only_when_missing (self : FSMAdminMixin) (env : Env)
    (request : HttpRequest) (obj : Instance) (n : string) (w : World)
    (r : Result HttpResponse) (w' : World) :
  POST request !! fsm_post_param = Some n →
  response_change self env request obj w = (r, w') →
  (∃ evs, trace w' = trace w ++ evs ∧
     ∀ lvl, EvMessage lvl (fsm_transition_not_valid_msg n) ∈ evs →
            methods obj !! n = None ∧ attrs w !! n = None) ∧
  (∀ c, n ≠ "" → methods obj !! n = Some c → _django_fsm c = None →
     get_fsm_transition_custom (AMethod c) w = (Ok ∅, w) ∧
     ∃ evs, trace w' = trace w ++ EvCall n (first_kwargs env request) :: evs) ∧
  (∀ request' f, getattr obj n w = (Ok f, w) → django_fsm_of f = None →
     fsm_transition_view self env request' obj n w =
       (Ok (HttpResponseBadRequest (n +:+ " is not a transition method")), w)).
Proof.
  intros Hpost Hrc. split; [|split].
  - unfold response_change in Hrc. rewrite Hpost in Hrc.
    destruct (truthy (VStr n)).
    2:{ inversion Hrc; subst. exists []. rewrite (right_id_L [] (++)).
        split; [done|]. intros lvl Hin. by apply elem_of_nil in Hin. }
    destruct (getattr obj n w) as [rg wg] eqn:Hget.
    assert (wg = w) as ->.
    { unfold getattr in Hget. destruct (methods obj !! n); [by inversion Hget|].
      destruct (attrs w !! n); by inversion Hget. }
    destruct rg as [func|e].
    + destruct (response_change_transition_found _ _ _ _ _ _ _ _ _ Hget Hrc)
        as (calls & tail & Htr & Hcalls & Htail).
      exists (calls ++ tail). split; [done|].
      intros lvl Hin. exfalso. apply elem_of_app in Hin as [Hin|Hin].
      * rewrite forallb_forall in Hcalls.
        apply list_elem_of_In, Hcalls in Hin. done.
      * pose proof (not_valid_msg_distinct n) as (D1 & D2 & D3).
        destruct Htail as [->|[->|[->|[[m ->]| ->]]]].
        -- by apply elem_of_nil in Hin.
        -- by apply list_elem_of_singleton in Hin.
        -- apply list_elem_of_singleton in Hin. apply D1. congruence.
        -- apply list_elem_of_singleton in Hin. apply (D3 m). congruence.
        -- apply elem_of_cons in Hin as [Hin|Hin]; [done|].
           apply list_elem_of_singleton in Hin. apply D2. congruence.
    + unfold getattr in Hget. destruct (methods obj !! n) eqn:Hm; [by inversion Hget|].
      destruct (attrs w !! n) eqn:Ha; [by inversion Hget|].
      inversion Hget; subst.
      rewrite response_change_transition_cases in Hrc.
      unfold getattr in Hrc. rewrite Hm, Ha in Hrc. inversion Hrc; subst. simpl.
      exists [EvMessage ERROR (fsm_transition_not_valid_msg n)]. done.
  - intros c Hn Hm Hfsm.
    assert (get_fsm_transition_custom (AMethod c) w = (Ok ∅, w)) as Hcst.
    { unfold get_fsm_transition_custom, get_fsm_transition, bind. simpl.
      by rewrite Hfsm. }
    split; [done|].
    destruct (invoke_transition env request n (AMethod c) w) as [ri wi] eqn:Hi.
    pose proof (invoke_transition_first_call _ _ _ _ _ _ _ Hi) as (calls & Htr).
    rewrite (response_change_invoked self env request obj n _ ∅ w ri wi
               Hpost Hn (getattr_method _ _ _ _ Hm) Hcst eq_refl Hi) in Hrc.
    destruct ri as [[]|e]; [destruct (save_raises obj (attrs wi))|destruct e];
      inversion Hrc; subst; simpl; rewrite Htr;
      rewrite <- ?(assoc_L (++)); simpl; eauto.
  - intros request' f Hget Hfsm.
    unfold fsm_transition_view, bind. rewrite Hget, Hfsm. done.
Qed.

(** [refresh] is a method, not a transition. *)
Lemma not_valid_only_when_missing_witness :
  get_fsm_transition_custom (AMethod refresh) draft_world = (Ok ∅, draft_world) ∧
  fsm_transition_view blog_admin env_plain (post_request "refresh") blog_post
      "refresh" draft_world =
    (Ok (HttpResponseBadRequest "refresh is not a transition method"), draft_world).
Proof.
  destruct (not_valid_only_when_missing blog_admin env_plain (post_request "refresh")
              blog_post "refresh" draft_world _ _ eq_refl eq_refl) as (_ & Hb & Hc).
  split.
  - apply (Hb refresh); [discriminate | reflexivity | reflexivity].
  - apply (Hc (post_request "refresh") (AMethod refresh)); reflexivity.
Defined.

(** ** The transition form *)

Lemma get_fsm_transition_form_world env t w r w1 :
  get_fsm_transition_form env t w = (r, w1) → w1 = w.
Proof.
  unfold get_fsm_transition_form.
  destruct (dict_get (custom t) "form"); try (intros H; by inversion H).
  destruct (import_string env s); intros H; by inversion H.
Qed.

Lemma get_fsm_transition_custom_resolved f w t :
  get_fsm_transition f w = (Ok (Some t), w) →
  get_fsm_transition_custom f w = (Ok (custom t), w).
Proof. intros H. unfold get_fsm_transition_custom, bind. by rewrite H. Qed.

(** X16: when the descriptor resolved for the current state has a truthy
    ["form"] in its custom metadata, [response_change] redirects to the
    transition form view: the method is not called and nothing is saved
    or reported. *)
Theorem response_change_form_redirect (self : FSMAdminMixin) (env : Env)
    (request : HttpRequest) (obj : Instance) (n : string) (c : Callable)
    (t : Transition) (w : World) :
  POST request !! fsm_post_param = Some n → n ≠ "" →
  methods obj !! n = Some c →
  get_fsm_transition (AMethod c) w = (Ok (Some t), w) →
  truthy (dict_get (custom t) "form") = true →
  response_change self env request obj w =
    (Ok (HttpResponseRedirect
           (UrlReverse ("admin:" +:+ app_label self +:+ "_" +:+ model_name self
                          +:+ "_transition")
                       (pk obj) (Some n))), w).
Proof.
  intros Hpost Hn Hm Hres Hform.
  unfold response_change. rewrite Hpost, (truthy_name _ Hn).
  unfold response_change_transition, bind, attempt at 1.
  rewrite (getattr_method _ _ _ _ Hm).
  rewrite (get_fsm_transition_custom_resolved _ _ _ Hres), Hform. done.
Qed.

(** [retitle] asks for the rename form. *)
Lemma response_change_form_redirect_witness :
  response_change blog_admin env_plain (post_request "retitle") blog_post_forms draft_world =
    (Ok (HttpResponseRedirect
           (UrlReverse "admin:blog_post_transition" (VInt 1) (Some "retitle"))),
     draft_world).
Proof.
  apply (response_change_form_redirect blog_admin env_plain (post_request "retitle")
           blog_post_forms "retitle" retitle retitle_transition draft_world);
    [reflexivity | discriminate | reflexivity | reflexivity | reflexivity].
Defined.

(** X15: when the first registered descriptor carries a form class and
    the posted data validate, the view calls the method with exactly
    [cleaned_data] as keyword arguments; if the call returns,
    [obj.save()] is called next and the view redirects to the change
    page without a message; an exception of the call, or of the save,
    leaves the view. *)
Theorem fsm_transition_view_valid_form (self : FSMAdminMixin) (env : Env)
    (request : HttpRequest) (obj : Instance) (n : string) (c : Callable)
    (fsm_meta : FSMMeta) (t : Transition) (ts : list Transition)
    (form_name : string) (form_clean : gmap string string → option (gmap string PyVal))
    (cleaned_data : gmap string PyVal) (w : World) (o : Outcome)
    (a' : gmap string PyVal) :
  methods obj !! n = Some c →
  _django_fsm c = Some fsm_meta →
  transitions_values (transitions fsm_meta) = t :: ts →
  get_fsm_transition_form env t w = (Ok (VFormClass form_name form_clean), w) →
  method request = "POST" →
  form_clean (POST request) = Some cleaned_data →
  run c cleaned_data (attrs w) = (o, a') →
  fsm_transition_view self env request obj n w =
    match o with
    | Returns _ =>
        (match save_raises obj a' with
         | None => Ok (HttpResponseRedirect (change_url self obj))
         | Some e => Err e
         end,
         {| attrs := a'; trace := trace w ++ [EvCall n cleaned_data; EvSave] |})
    | Raises e =>
        (Err e, {| attrs := a'; trace := trace w ++ [EvCall n cleaned_data] |})
    end.
Proof.
  intros Hm Hfsm Hts Hf Hpost Hclean Hrun.
  unfold fsm_transition_view, bind at 1. rewrite (getattr_method _ _ _ _ Hm).
  change (django_fsm_of (AMethod c)) with (_django_fsm c).
  rewrite Hfsm, Hts. unfold bind at 1. rewrite Hf.
  change (truthy (VFormClass form_name form_clean)) with true. cbv iota.
  rewrite Hpost. change (String.eqb "POST" "POST") with true. cbv iota.
  unfold bind at 1, form_is_valid, ret at 1. rewrite Hclean.
  unfold bind at 1. rewrite (call_method _ _ _ _ _ _ Hrun).
  destruct o; [|done]. unfold bind. rewrite save_run. simpl.
  rewrite after_after. unfold after. simpl.
  by destruct (save_raises obj a').
Qed.

(** The posted title is the only keyword argument of [retitle]. *)
Lemma fsm_transition_view_valid_form_witness :
  fsm_transition_view blog_admin env_plain form_post_request blog_post_forms
      "retitle" draft_world =
    (Ok (HttpResponseRedirect (UrlReverse "admin:blog_post_change" (VInt 1) None)),
     {| attrs := <[ "title" := VStr "Hello again" ]> (attrs draft_world);
        trace := [EvCall "retitle" {[ "title" := VStr "Hello again" ]}; EvSave] |}).
Proof.
  exact (fsm_transition_view_valid_form blog_admin env_plain form_post_request
           blog_post_forms "retitle" retitle _ retitle_transition [] _ _
           {[ "title" := VStr "Hello again" ]} draft_world (Returns RNone) _
           eq_refl eq_refl eq_refl eq_refl eq_refl eq_refl eq_refl).
Defined.

(** C6 at a failing input: [signoff] is registered from [new] without a
    form and then from [draft] with the rename form, and the instance is
    in [draft].  The descriptor resolved for the current state has a
    truthy ["form"], so [response_change] calls nothing and redirects to
    the transition form view; that view takes the first registered
    descriptor, which has no form, and calls the method without any
    keyword argument and without a form having validated, on a GET as on
    a POST that carries a title, and saves. *)
Theorem form_redirect_then_call_without_form :
  get_fsm_transition (AMethod signoff) draft_world =
    (Ok (Some signoff_from_draft), draft_world) ∧
  truthy (dict_get (custom signoff_from_draft) "form") = true ∧
  response_change blog_admin env_plain (post_request "signoff") blog_post_forms
      draft_world =
    (Ok (HttpResponseRedirect
           (UrlReverse "admin:blog_post_transition" (VInt 1) (Some "signoff"))),
     draft_world) ∧
  fsm_transition_view blog_admin env_plain form_get_request blog_post_forms
      "signoff" draft_world =
    (Ok (HttpResponseRedirect (UrlReverse "admin:blog_post_change" (VInt 1) None)),
     {| attrs := set_state "signed" (attrs draft_world);
        trace := [EvCall "signoff" ∅; EvSave;
                  EvMessage SUCCESS "FSM transition 'signoff' succeeded."] |}) ∧
  fsm_transition_view blog_admin env_plain form_post_request blog_post_forms
      "signoff" draft_world =
    (Ok (HttpResponseRedirect (UrlReverse "admin:blog_post_change" (VInt 1) None)),
     {| attrs := set_state "signed" (attrs draft_world);
        trace := [EvCall "signoff" ∅; EvSave;
                  EvMessage SUCCESS "FSM transition 'signoff' succeeded."] |}).
Proof. repeat split; reflexivity. Qed.

(** The view shows the form of the first registered descriptor,
    whatever the state of the instance. *)
Lemma fsm_transition_view_renders_first self env request obj n c fsm_meta t ts
    form_name form_clean w :
  methods obj !! n = Some c →
  _django_fsm c = Some fsm_meta →
  transitions_values (transitions fsm_meta) = t :: ts →
  get_fsm_transition_form env t w = (Ok (VFormClass form_name form_clean), w) →
  String.eqb (method request) "POST" = false →
  fsm_transition_view self env request obj n w =
    (Ok (Render fsm_transition_form_template t (VFormClass form_name form_clean) None), w).
Proof.
  intros Hm Hfsm Hts Hf Hget.
  unfold fsm_transition_view, bind. rewrite (getattr_method _ _ _ _ Hm). simpl.
  rewrite Hfsm, Hts, Hf. simpl. by rewrite Hget.
Qed.

(** C7 at a failing input: [review] is registered from [new] (rename
    form) and then from [draft] (comment form) and the instance is in
    [draft].  Resolution against the current state gives the [draft]
    descriptor, and [response_change] redirects on its form; the view
    renders the [new] descriptor and its rename form. *)
Theorem fsm_transition_view_ignores_state :
  get_fsm_transition (AMethod review) draft_world =
    (Ok (Some review_from_draft), draft_world) ∧
  response_change blog_admin env_plain (post_request "review") blog_post_forms draft_world =
    (Ok (HttpResponseRedirect
           (UrlReverse "admin:blog_post_transition" (VInt 1) (Some "review"))),
     draft_world) ∧
  fsm_transition_view blog_admin env_plain form_get_request blog_post_forms
      "review" draft_world =
    (Ok (Render fsm_transition_form_template review_from_new
                AdminBlogPostRenameForm None), draft_world) ∧
  source review_from_new ≠ source review_from_draft.
Proof. repeat split; try reflexivity. discriminate. Qed.

(** ** The transitions of the change view *)

Lemma sorted_Sorted l : Sorted String.le (sorted l).
Proof. apply Sorted_merge_sort. apply _. Qed.

Lemma sorted_Permutation l : sorted l ≡ₚ l.
Proof. apply merge_sort_Permutation. Qed.

(** One turn of the generator, for a field whose accessor is a method
    that returns a list of transitions. *)
Lemma _get_fsm_object_transitions_from_cons self request obj field_name rest c ts a' w :
  methods obj !! get_available_user_transitions_name field_name = Some c →
  run c (kwargs_user request) (attrs w) = (Returns (RTransitions ts), a') →
  _get_fsm_object_transitions_from self request obj (field_name :: rest) w =
    match _get_fsm_object_transitions_from self request obj rest
            (after w a' [EvCall (get_available_user_transitions_name field_name)
                                (kwargs_user request)]) with
    | (Ok more, w') =>
        (Ok ({| fsm_field := field_name;
                available_transitions := List.filter (admin_visible self) ts |} :: more), w')
    | (Err e, w') => (Err e, w')
    end.
Proof.
  intros Hm Hrun. simpl. unfold bind at 1. rewrite (getattr_method _ _ _ _ Hm).
  change (attr_truthy (AMethod c)) with true. cbv iota.
  unfold bind at 1. fold (kwargs_user request).
  rewrite (call_method _ _ _ _ _ _ Hrun).
  unfold bind at 1. unfold iter_transitions, ret at 1.
  unfold bind.
  destruct (_get_fsm_object_transitions_from self request obj rest _) as [[more|e] w']; done.
Qed.

(** Every entry of the context comes from the accessor of its field,
    and the entries follow the order of the field names. *)
Lemma _get_fsm_object_transitions_from_entries self request obj names w ctx w' :
  _get_fsm_object_transitions_from self request obj names w = (Ok ctx, w') →
  fsm_field <$> ctx `sublist_of` names ∧
  Forall (λ e, ∃ ts, entry_of self request obj e ts) ctx.
Proof.
  revert w ctx. induction names as [|f names IH]; intros w ctx; simpl.
  - intros H. inversion H; subst. split; [done|constructor].
  - unfold bind at 1, getattr.
    destruct (methods obj !! get_available_user_transitions_name f) as [c|] eqn:Hm.
    + change (attr_truthy (AMethod c)) with true. cbv iota.
      unfold bind at 1, call. fold (kwargs_user request).
      destruct (run c (kwargs_user request) (attrs w)) as [o a'] eqn:Hrun.
      destruct o as [r|e]; [|done].
      unfold bind at 1. destruct r as [|v|ts]; try done. unfold iter_transitions, ret at 1.
      unfold bind.
      destruct (_get_fsm_object_transitions_from self request obj names _)
        as [[more|e] w1] eqn:Hrest; [|done].
      intros H. inversion H; subst. apply IH in Hrest as [Hsub Hall].
      split; [by constructor|]. constructor; [|done].
      exists ts, c, (attrs w), a'. done.
    + destruct (attrs w !! get_available_user_transitions_name f) as [v|]; [|done].
      destruct (attr_truthy (AValue v)); [done|].
      intros H. apply IH in H as [Hsub Hall]. split; [by constructor|done].
Qed.

(** When the accessors only read, the context is determined. *)
Lemma _get_fsm_object_transitions_from_readers self request obj avail names w :
  (∀ f, f ∈ names → ∃ c,
     methods obj !! get_available_user_transitions_name f = Some c ∧
     run c (kwargs_user request) (attrs w) = (Returns (RTransitions (avail f)), attrs w)) →
  _get_fsm_object_transitions_from self request obj names w =
    (Ok (entry_for self avail <$> names),
     after w (attrs w)
       ((λ f, EvCall (get_available_user_transitions_name f) (kwargs_user request))
          <$> names)).
Proof.
  revert w. induction names as [|f names IH]; intros w Hall.
  - simpl. by rewrite after_nil.
  - destruct (Hall f) as (c & Hm & Hrun); [set_solver|].
    rewrite (_get_fsm_object_transitions_from_cons _ _ _ _ _ _ _ _ _ Hm Hrun).
    rewrite IH.
    + rewrite after_after. done.
    + intros g Hg. destruct (Hall g) as (cg & Hmg & Hrung); [set_solver|].
      exists cg. done.
Qed.

Lemma elem_of_admin_visible self t ts :
  t ∈ List.filter (admin_visible self) ts ↔
  t ∈ ts ∧
  truthy (dict_get_default (custom t) "admin"
            (VBool (default_disallow_transition self))) = true.
Proof. by rewrite !list_elem_of_In, filter_In. Qed.

(** C4: the context of the change view has, for the field names of
    [fsm_fields] in sorted order, the transitions returned by
    [get_available_user_<field>_transitions(user=request.user)] whose
    [custom.get("admin", default_disallow_transition)] is truthy, and
    exactly those, in the order returned. *)
Theorem change_view_transitions (self : FSMAdminMixin) (request : HttpRequest)
    (obj : Instance) (w : World) :
  (∀ ctx w',
     _get_fsm_object_transitions self request obj w = (Ok ctx, w') →
     change_view self request obj w = (Ok (SuperChangeView ctx), w') ∧
     fsm_field <$> ctx `sublist_of` sorted (fsm_fields self) ∧
     Forall (λ e, ∃ ts, entry_of self request obj e ts ∧
               ∀ t, t ∈ available_transitions e ↔
                    t ∈ ts ∧
                    truthy (dict_get_default (custom t) "admin"
                              (VBool (default_disallow_transition self))) = true) ctx) ∧
  (∀ avail,
     (∀ f, f ∈ fsm_fields self → ∃ c,
        methods obj !! get_available_user_transitions_name f = Some c ∧
        run c (kwargs_user request) (attrs w) =
          (Returns (RTransitions (avail f)), attrs w)) →
     change_view self request obj w =
       (Ok (SuperChangeView (entry_for self avail <$> sorted (fsm_fields self))),
        after w (attrs w)
          ((λ f, EvCall (get_available_user_transitions_name f) (kwargs_user request))
             <$> sorted (fsm_fields self)))) ∧
  Sorted String.le (sorted (fsm_fields self)) ∧
  sorted (fsm_fields self) ≡ₚ fsm_fields self.
Proof.
  split; [|split; [|split]].
  - intros ctx w' H. split; [by unfold change_view, bind; rewrite H|].
    apply _get_fsm_object_transitions_from_entries in H as [Hsub Hall].
    split; [done|]. eapply Forall_impl; [exact Hall|].
    intros e (ts & He). exists ts. split; [done|].
    destruct He as (c & a & a' & _ & _ & ->). intros t. apply elem_of_admin_visible.
  - intros avail Hall. unfold change_view, bind, _get_fsm_object_transitions.
    rewrite (_get_fsm_object_transitions_from_readers _ _ _ avail); [done|].
    intros f Hf. apply Hall. by rewrite <- (sorted_Permutation (fsm_fields self)).
  - apply sorted_Sorted.
  - apply sorted_Permutation.
Qed.

(** Default settings: the transition without an ["admin"] entry is shown. *)
Lemma change_view_transitions_witness :
  change_view (workflow_admin ∅) change_get_request workflow_post draft_world =
    (Ok (SuperChangeView
           [ {| fsm_field := "approval"; available_transitions := [t_approve] |};
             {| fsm_field := "state"; available_transitions := [t_plain; t_shown] |} ]),
     {| attrs := attrs draft_world; trace := workflow_calls |}).
Proof.
  destruct (change_view_transitions (workflow_admin ∅) change_get_request
              workflow_post draft_world) as (_ & H & _).
  apply (H workflow_avail).
  intros f Hf. simpl in Hf.
  apply elem_of_cons in Hf as [->|Hf];
    [|apply list_elem_of_singleton in Hf as ->];
    eexists; split; reflexivity.
Defined.

(** C9: with [FSM_ADMIN_FORCE_PERMIT] absent or false, every available
    transition whose custom metadata has no ["admin"] key is in the
    admin's list; with the setting true such a transition is left out,
    and the list holds exactly the transitions with a truthy
    [custom["admin"]]. *)
Theorem force_permit_default (self : FSMAdminMixin) (settings : gmap string PyVal)
    (request : HttpRequest) (obj : Instance) (w : World)
    (ctx : list FSMObjectTransition) (w' : World) :
  default_disallow_transition self = class_default_disallow_transition settings →
  _get_fsm_object_transitions self request obj w = (Ok ctx, w') →
  Forall (λ e, ∃ ts, entry_of self request obj e ts ∧
    ((settings !! "FSM_ADMIN_FORCE_PERMIT" = None ∨
      settings !! "FSM_ADMIN_FORCE_PERMIT" = Some (VBool false)) →
       ∀ t, t ∈ ts → custom t !! "admin" = None → t ∈ available_transitions e) ∧
    (settings !! "FSM_ADMIN_FORCE_PERMIT" = Some (VBool true) →
       (∀ t, t ∈ ts → custom t !! "admin" = None → t ∉ available_transitions e) ∧
       (∀ t, t ∈ available_transitions e ↔
             t ∈ ts ∧ ∃ v, custom t !! "admin" = Some v ∧ truthy v = true))) ctx.
Proof.
  intros Hdflt H.
  apply _get_fsm_object_transitions_from_entries in H as [_ Hall].
  eapply Forall_impl; [exact Hall|].
  intros e (ts & He). exists ts. split; [done|].
  destruct He as (c & a & a' & _ & _ & ->).
  split.
  - intros Hs t Ht Hnone. apply elem_of_admin_visible. split; [done|].
    rewrite Hdflt. unfold class_default_disallow_transition, dict_get_default.
    rewrite Hnone. by destruct Hs as [-> | ->].
  - intros Hs. split.
    + intros t Ht Hnone Hin. apply elem_of_admin_visible in Hin as [_ Hin].
      rewrite Hdflt in Hin.
      unfold class_default_disallow_transition, dict_get_default in Hin.
      rewrite Hnone, Hs in Hin. done.
    + intros t. rewrite elem_of_admin_visible, Hdflt.
      unfold class_default_disallow_transition, dict_get_default. rewrite Hs.
      split; intros [Ht Hv]; (split; [done|]).
      * destruct (custom t !! "admin") as [v|]; [by exists v|done].
      * by destruct Hv as (v & -> & Hv).
Qed.

(** [FSM_ADMIN_FORCE_PERMIT = True]: only the transitions marked for the
    admin are shown. *)
Lemma force_permit_default_witness :
  Forall (λ e, ∃ ts, entry_of (workflow_admin settings_force_permit)
                       change_get_request workflow_post e ts ∧
    ((settings_force_permit !! "FSM_ADMIN_FORCE_PERMIT" = None ∨
      settings_force_permit !! "FSM_ADMIN_FORCE_PERMIT" = Some (VBool false)) →
       ∀ t, t ∈ ts → custom t !! "admin" = None → t ∈ available_transitions e) ∧
    (settings_force_permit !! "FSM_ADMIN_FORCE_PERMIT" = Some (VBool true) →
       (∀ t, t ∈ ts → custom t !! "admin" = None → t ∉ available_transitions e) ∧
       (∀ t, t ∈ available_transitions e ↔
             t ∈ ts ∧ ∃ v, custom t !! "admin" = Some v ∧ truthy v = true)))
    [ {| fsm_field := "approval"; available_transitions := [t_approve] |};
      {| fsm_field := "state"; available_transitions := [t_shown] |} ].
Proof.
  exact (force_permit_default (workflow_admin settings_force_permit)
           settings_force_permit change_get_request workflow_post draft_world
           _ {| attrs := attrs draft_world; trace := workflow_calls |}
           eq_refl eq_refl).
Defined.

(** * Further properties of the handlers *)

(** ** response_change, case by case *)

(** X1: a POST without [_fsm_transition_to], or with an empty one, is
    the superclass's business: nothing is looked up, called, saved or
    reported. *)
Theorem response_change_defers (self : FSMAdminMixin) (env : Env)
    (request : HttpRequest) (obj : Instance) (w : World) :
  POST request !! fsm_post_param = None ∨ POST request !! fsm_post_param = Some "" →
  response_change self env request obj w = (Ok SuperResponseChange, w).
Proof. unfold response_change. by intros [-> | ->]. Qed.

(** A plain save of the change form. *)
Lemma response_change_defers_witness :
  response_change blog_admin env_logged change_get_request blog_post draft_world =
    (Ok SuperResponseChange, draft_world).
Proof.
  apply (response_change_defers blog_admin env_logged change_get_request
           blog_post draft_world).
  left. reflexivity.
Defined.

(** X2: when [_fsm_transition_to] names an attribute that is a plain
    value and not a method, [response_change] raises [TypeError], with
    or without the plugin, having called, saved and reported nothing. *)
Theorem response_change_not_callable (self : FSMAdminMixin) (env : Env)
    (request : HttpRequest) (obj : Instance) (n : string) (v : PyVal) (w : World) :
  POST request !! fsm_post_param = Some n → n ≠ "" →
  methods obj !! n = None → attrs w !! n = Some v → plain_value v = true →
  ∃ msg, response_change self env request obj w = (Err (TypeError msg), w).
Proof.
  intros Hpost Hn Hm Ha _.
  unfold response_change. rewrite Hpost, (truthy_name _ Hn).
  rewrite response_change_transition_cases.
  unfold getattr. rewrite Hm, Ha.
  change (get_fsm_transition_custom (AValue v) w) with (Ok (∅ : Kwargs), w).
  change (truthy (dict_get ∅ "form")) with false. cbv iota.
  unfold invoke_transition. destruct (FSM_LOG_ENABLED (modules env)); eauto.
Qed.

(** [title] is a field of the blog post, not a transition. *)
Lemma response_change_not_callable_witness :
  ∃ msg, response_change blog_admin env_logged (post_request "title") blog_post
           draft_world = (Err (TypeError msg), draft_world).
Proof.
  apply (response_change_not_callable blog_admin env_logged (post_request "title")
           blog_post "title" (VStr "Hello") draft_world);
    [reflexivity | discriminate | reflexivity | reflexivity | reflexivity].
Defined.

Lemma answered_Ok failure response resp :
  answered failure response = Ok resp → failure = None ∧ response = resp.
Proof. destruct failure; [done|]. by inversion 1. Qed.

Lemma answered_Err failure response e :
  answered failure response = Err e → failure = Some e.
Proof. destruct failure; [|done]. by inversion 1. Qed.

(** X3: a POST that names a transition and is answered has either
    been sent to the transition form, nothing having happened, or been
    redirected to the page it came from after exactly one message, which
    follows the calls made and, at most, one [obj.save()] that comes
    right before it. *)
Theorem response_change_one_message (self : FSMAdminMixin) (env : Env)
    (request : HttpRequest) (obj : Instance) (n : string) (w : World)
    (resp : HttpResponse) (w' : World) :
  POST request !! fsm_post_param = Some n → n ≠ "" →
  response_change self env request obj w = (Ok resp, w') →
  (resp = HttpResponseRedirect (transition_url self obj n) ∧ w' = w) ∨
  (resp = HttpResponseRedirect (UrlPreserved (preserved_filters request) (path request)) ∧
   ∃ calls lvl msg, forallb is_call calls = true ∧
     (trace w' = trace w ++ calls ++ [EvMessage lvl msg] ∨
      trace w' = trace w ++ calls ++ [EvSave; EvMessage lvl msg])).
Proof.
  intros Hpost Hn. unfold response_change. rewrite Hpost, (truthy_name _ Hn).
  rewrite response_change_transition_cases.
  destruct (getattr obj n w) as [[func|e] wg].
  - destruct (get_fsm_transition_custom func w) as [[cst|e] wc]; [|done].
    destruct (truthy (dict_get cst "form")).
    + intros H. inversion H. by left.
    + destruct (invoke_transition env request n func w) as [r w1] eqn:Hi.
      apply invoke_transition_only_calls in Hi as (calls & Htr & Hcalls).
      destruct r as [[]|e];
        [destruct (save_raises obj (attrs w1)); [done|] | destruct e; try done];
        intros H; inversion H as [[Hans Hw]];
        apply answered_Ok in Hans as [_ <-]; right; (split; [done|]);
        simpl; rewrite Htr, <- (assoc_L (++)); eauto 10.
  - destruct e; try done. intros H. inversion H as [[Hans Hw]].
    apply answered_Ok in Hans as [_ <-]. right. split; [done|].
    exists [], ERROR, (fsm_transition_not_valid_msg n). split; [done|]. by left.
Qed.

(** [archive] is refused: one call, one message, no save. *)
Lemma response_change_one_message_witness :
  ∃ calls lvl msg, forallb is_call calls = true ∧
    (trace (response_change blog_admin env_plain (post_request "archive") blog_post
              draft_world).2 = trace draft_world ++ calls ++ [EvMessage lvl msg] ∨
     trace (response_change blog_admin env_plain (post_request "archive") blog_post
              draft_world).2 = trace draft_world ++ calls ++ [EvSave; EvMessage lvl msg]).
Proof.
  destruct (response_change_one_message blog_admin env_plain (post_request "archive")
              blog_post "archive" draft_world
              (fsm_redirect (post_request "archive"))
              (response_change blog_admin env_plain (post_request "archive") blog_post
                 draft_world).2)
    as [[H _]|[_ H]]; [reflexivity | discriminate | reflexivity | discriminate H | exact H].
Defined.



Lemma get_fsm_transition_custom_error f w e w1 :
  get_fsm_transition_custom f w = (Err e, w1) → e = ConfigurationError.
Proof.
  unfold get_fsm_transition_custom, get_fsm_transition, bind.
  destruct (django_fsm_of f) as [meta|]; [|done].
  unfold get_state. destruct (attrs w !! field meta); [done|]. by inversion 1.
Qed.

(** X5: with the plugin and the POST naming a method, a [TypeError]
    that leaves [response_change] is never one raised by a call of the
    method, since the loop swallows those, the last attempt's included:
    it is the exception of [obj.save()] or of [message_user]. *)
Theorem response_change_logged_TypeError_origin (self : FSMAdminMixin) (env : Env)
    (request : HttpRequest) (obj : Instance) (n : string) (c : Callable)
    (w : World) (e : Exn) (w' : World) :
  "django_fsm_log" ∈ modules env →
  POST request !! fsm_post_param = Some n →
  methods obj !! n = Some c →
  response_change self env request obj w = (Err e, w') →
  is_TypeError e = true →
  save_raises obj (attrs w') = Some e ∨ ∃ lvl msg, message_failure env lvl msg = Some e.
Proof.
  intros Hlog Hpost Hm. apply FSM_LOG_ENABLED_true in Hlog.
  unfold response_change. rewrite Hpost.
  destruct (truthy (VStr n)); [|done].
  rewrite response_change_transition_cases, (getattr_method _ _ _ _ Hm).
  destruct (get_fsm_transition_custom (AMethod c) w) as [[cst|e0] wc] eqn:Hc.
  - destruct (truthy (dict_get cst "form")); [done|].
    rewrite (invoke_transition_logged _ _ _ _ _ Hlog).
    destruct (call_until_accepted _ _ w) as [r w1] eqn:Hi.
    destruct r as [[]|e0].
    + destruct (save_raises obj (attrs w1)) as [e1|] eqn:Hsave.
      * intros H _. inversion H; subst. by left.
      * intros H _. inversion H as [[Hans Hw]]. apply answered_Err in Hans. eauto.
    + apply call_until_accepted_no_TypeError in Hi.
      destruct e0; try done.
      all: try (intros H Hty; inversion H; subst; done).
      all: intros H _; inversion H as [[Hans Hw]]; apply answered_Err in Hans; eauto.
  - apply get_fsm_transition_custom_error in Hc as ->.
    intros H Hty. by inversion H; subst.
Qed.

(** [recount] raises [TypeError] on each of its three calls and none of
    them leaves; the [TypeError] that does is the one of the faulty
    [save]. *)
Lemma response_change_logged_TypeError_origin_witness :
  response_change blog_admin env_logged (post_request "recount") blog_post_faulty_save
      draft_world =
    (Err (TypeError "save() argument must be str, not None"),
     {| attrs := attrs draft_world;
        trace := [EvCall "recount" (kwargs_request_by (post_request "recount"));
                  EvCall "recount" (kwargs_by (post_request "recount"));
                  EvCall "recount" ∅;
                  EvSave] |}) ∧
  (save_raises blog_post_faulty_save (attrs draft_world) =
     Some (TypeError "save() argument must be str, not None") ∨
   ∃ lvl msg, message_failure env_logged lvl msg =
                Some (TypeError "save() argument must be str, not None")).
Proof.
  split; [reflexivity|].
  exact (response_change_logged_TypeError_origin blog_admin env_logged
           (post_request "recount") blog_post_faulty_save "recount" recount draft_world
           (TypeError "save() argument must be str, not None")
           {| attrs := attrs draft_world;
              trace := [EvCall "recount" (kwargs_request_by (post_request "recount"));
                        EvCall "recount" (kwargs_by (post_request "recount"));
                        EvCall "recount" ∅;
                        EvSave] |}
           ltac:(set_solver) eq_refl eq_refl eq_refl eq_refl).
Defined.

(** ** fsm_transition_view, case by case *)

(** X6: when the first registered descriptor asks for no form, the
    view calls the method without arguments, whatever the request's
    method and with or without the plugin.  A return is followed by
    [obj.save()] and the success message at level SUCCESS,
    [TransitionNotAllowed] by the not-allowed message without a save,
    both ending in the redirect to the change page; any other
    exception, [ConcurrentTransition] included, leaves the view, nothing
    saved or reported.  An exception of [obj.save()] or of
    [message_user] leaves the view as well, right after that call. *)
Theorem fsm_transition_view_without_form (self : FSMAdminMixin) (env : Env)
    (request : HttpRequest) (obj : Instance) (n : string) (c : Callable)
    (fsm_meta : FSMMeta) (t : Transition) (ts : list Transition) (form : PyVal)
    (w : World) (o : Outcome) (a' : gmap string PyVal) :
  methods obj !! n = Some c →
  _django_fsm c = Some fsm_meta →
  transitions_values (transitions fsm_meta) = t :: ts →
  get_fsm_transition_form env t w = (Ok form, w) →
  truthy form = false →
  run c ∅ (attrs w) = (o, a') →
  fsm_transition_view self env request obj n w =
    match o with
    | Returns _ =>
        match save_raises obj a' with
        | Some e => (Err e, {| attrs := a'; trace := trace w ++ [EvCall n ∅; EvSave] |})
        | None =>
            (answered (message_failure env SUCCESS (fsm_transition_success_msg n))
                      (HttpResponseRedirect (change_url self obj)),
             {| attrs := a';
                trace := trace w ++ [EvCall n ∅; EvSave;
                                     EvMessage SUCCESS (fsm_transition_success_msg n)] |})
        end
    | Raises (TransitionNotAllowed _) =>
        (answered (message_failure env ERROR (fsm_transition_not_allowed_msg n))
                  (HttpResponseRedirect (change_url self obj)),
         {| attrs := a';
            trace := trace w ++ [EvCall n ∅;
                                 EvMessage ERROR (fsm_transition_not_allowed_msg n)] |})
    | Raises e => (Err e, {| attrs := a'; trace := trace w ++ [EvCall n ∅] |})
    end.
Proof.
  intros Hm Hfsm Hts Hf Hform Hrun.
  unfold fsm_transition_view, bind at 1. rewrite (getattr_method _ _ _ _ Hm).
  change (django_fsm_of (AMethod c)) with (_django_fsm c).
  rewrite Hfsm, Hts. unfold bind at 1. rewrite Hf, Hform.
  unfold bind at 1, attempt. rewrite (call_method _ _ _ _ _ _ Hrun).
  destruct o as [r|e]; [|destruct e]; try done.
  - unfold bind. rewrite save_run. simpl.
    destruct (save_raises obj a'); [by rewrite after_after|].
    rewrite message_user_run. simpl. rewrite !after_after. simpl.
    by destruct (message_failure env SUCCESS (fsm_transition_success_msg n)).
  - unfold bind. rewrite message_user_run. simpl. rewrite after_after. simpl.
    by destruct (message_failure env ERROR (fsm_transition_not_allowed_msg n)).
Qed.

(** [publish] has no form: a GET of its transition page publishes. *)
Lemma fsm_transition_view_without_form_witness :
  fsm_transition_view blog_admin env_logged form_get_request blog_post "publish"
      draft_world =
    (Ok (HttpResponseRedirect (UrlReverse "admin:blog_post_change" (VInt 1) None)),
     {| attrs := set_state "published" (attrs draft_world);
        trace := [EvCall "publish" ∅; EvSave;
                  EvMessage SUCCESS "FSM transition 'publish' succeeded."] |}).
Proof.
  exact (fsm_transition_view_without_form blog_admin env_logged form_get_request
           blog_post "publish" publish _ _ [] VNone draft_world (Returns RNone) _
           eq_refl eq_refl eq_refl eq_refl eq_refl eq_refl).
Defined.

(** X7: with a form class on the first registered descriptor, a request
    that is not a POST, or a POST whose data do not validate, is
    answered with the form page, unbound or bound to the posted data:
    the method is not called and nothing is saved or reported. *)
Theorem fsm_transition_view_shows_form (self : FSMAdminMixin) (env : Env)
    (request : HttpRequest) (obj : Instance) (n : string) (c : Callable)
    (fsm_meta : FSMMeta) (t : Transition) (ts : list Transition)
    (form_name : string) (form_clean : gmap string string → option (gmap string PyVal))
    (w : World) :
  methods obj !! n = Some c →
  _django_fsm c = Some fsm_meta →
  transitions_values (transitions fsm_meta) = t :: ts →
  get_fsm_transition_form env t w = (Ok (VFormClass form_name form_clean), w) →
  (method request ≠ "POST" →
     fsm_transition_view self env request obj n w =
       (Ok (Render fsm_transition_form_template t
                   (VFormClass form_name form_clean) None), w)) ∧
  (method request = "POST" → form_clean (POST request) = None →
     fsm_transition_view self env request obj n w =
       (Ok (Render fsm_transition_form_template t
                   (VFormClass form_name form_clean) (Some (POST request))), w)).
Proof.
  intros Hm Hfsm Hts Hf.
  unfold fsm_transition_view, bind. rewrite (getattr_method _ _ _ _ Hm).
  change (django_fsm_of (AMethod c)) with (_django_fsm c).
  rewrite Hfsm, Hts, Hf.
  change (truthy (VFormClass form_name form_clean)) with true. cbv iota.
  split.
  - intros Hget. apply String.eqb_neq in Hget. by rewrite Hget.
  - intros Hpost Hclean. rewrite Hpost.
    change (String.eqb "POST" "POST") with true. cbv iota.
    unfold form_is_valid, ret. by rewrite Hclean.
Qed.

(** The rename form refuses a POST without a title. *)
Lemma fsm_transition_view_shows_form_witness :
  fsm_transition_view blog_admin env_plain (post_request "retitle") blog_post_forms
      "retitle" draft_world =
    (Ok (Render fsm_transition_form_template retitle_transition
                AdminBlogPostRenameForm (Some (POST (post_request "retitle")))),
     draft_world).
Proof.
  destruct (fsm_transition_view_shows_form blog_admin env_plain (post_request "retitle")
              blog_post_forms "retitle" retitle _ retitle_transition [] _ _ draft_world
              eq_refl eq_refl eq_refl eq_refl) as [_ H].
  exact (H eq_refl eq_refl).
Defined.

(** X8: what the view does not catch.  A name that is no attribute of
    the object raises [AttributeError] (no not-valid message here); a
    transition method with an empty registry raises [IndexError]; a form
    given as a dotted path that cannot be imported, the empty string
    included, raises [ImportError].  In each case nothing was called,
    saved or reported. *)
Theorem fsm_transition_view_errors (self : FSMAdminMixin) (env : Env)
    (request : HttpRequest) (obj : Instance) (n : string) (w : World) :
  (methods obj !! n = None → attrs w !! n = None →
     fsm_transition_view self env request obj n w = (Err (AttributeError n), w)) ∧
  (∀ c fsm_meta,
     methods obj !! n = Some c → _django_fsm c = Some fsm_meta →
     transitions_values (transitions fsm_meta) = [] →
     fsm_transition_view self env request obj n w = (Err IndexError, w)) ∧
  (∀ c fsm_meta t ts dotted_path,
     methods obj !! n = Some c → _django_fsm c = Some fsm_meta →
     transitions_values (transitions fsm_meta) = t :: ts →
     custom t !! "form" = Some (VStr dotted_path) →
     import_string env dotted_path = None →
     fsm_transition_view self env request obj n w = (Err (ImportError dotted_path), w)).
Proof.
  split; [|split].
  - intros Hm Ha. unfold fsm_transition_view, bind, getattr. by rewrite Hm, Ha.
  - intros c fsm_meta Hm Hfsm Hts.
    unfold fsm_transition_view, bind. rewrite (getattr_method _ _ _ _ Hm).
    change (django_fsm_of (AMethod c)) with (_django_fsm c). by rewrite Hfsm, Hts.
  - intros c fsm_meta t ts dotted_path Hm Hfsm Hts Hform Himp.
    unfold fsm_transition_view, bind. rewrite (getattr_method _ _ _ _ Hm).
    change (django_fsm_of (AMethod c)) with (_django_fsm c). rewrite Hfsm, Hts.
    unfold get_fsm_transition_form, dict_get. by rewrite Hform; simpl; rewrite Himp.
Qed.

(** [vanish] is no attribute of the blog post. *)
Lemma fsm_transition_view_errors_witness :
  fsm_transition_view blog_admin env_plain form_get_request blog_post "vanish"
      draft_world = (Err (AttributeError "vanish"), draft_world).
Proof.
  destruct (fsm_transition_view_errors blog_admin env_plain form_get_request
              blog_post "vanish" draft_world) as [H _].
  apply H; reflexivity.
Defined.

(** ** get_readonly_fields, as a whole *)

Lemma is_protected_with_readonly_fields self ro n :
  is_protected (with_readonly_fields self ro) n = is_protected self n.
Proof. done. Qed.

Lemma readonly_loop_added self l ro :
  ∃ added,
    foldl (readonly_step self) ro l = ro ++ added ∧
    NoDup added ∧
    (∀ n, n ∈ added ↔ (n ∉ ro) ∧ n ∈ l ∧ is_protected self n = true).
Proof.
  revert ro. induction l as [|m l IH]; intros ro; simpl.
  - exists []. rewrite (right_id_L [] (++)). split; [done|]. split; [constructor|].
    set_solver.
  - rewrite readonly_step_cases.
    destruct (decide (m ∈ ro)) as [Hin|Hnin]; [|destruct (is_protected self m) eqn:Hp].
    + destruct (IH ro) as (added & -> & Hnd & Hadded).
      exists added. split; [done|]. split; [done|].
      intros n. rewrite Hadded. set_solver.
    + destruct (IH (ro ++ [m])) as (added & -> & Hnd & Hadded).
      exists (m :: added). split; [by rewrite <- (assoc_L (++))|]. split.
      * constructor; [|done]. rewrite Hadded. set_solver.
      * intros n. rewrite elem_of_cons, Hadded.
        destruct (decide (n = m)) as [->|Hne]; set_solver.
    + destruct (IH ro) as (added & -> & Hnd & Hadded).
      exists added. split; [done|]. split; [done|].
      intros n. rewrite Hadded.
      destruct (decide (n = m)) as [->|Hne]; [|set_solver].
      rewrite Hp. set_solver.
Qed.

(** X9: [get_readonly_fields] returns the superclass's tuple followed
    by the names it adds; it adds no name twice, and the names added
    are exactly those of [fsm_fields] that are protected fields of the
    model and were not read-only already. *)
Theorem get_readonly_fields_extends (self : FSMAdminMixin) :
  ∃ added,
    get_readonly_fields self = readonly_fields self ++ added ∧
    NoDup added ∧
    (∀ n, n ∈ added ↔
          (n ∉ readonly_fields self) ∧ n ∈ fsm_fields self ∧ is_protected self n = true).
Proof. apply readonly_loop_added. Qed.

(** X10: [get_readonly_fields] is idempotent: above a superclass that
    already returns its result, it returns that result unchanged. *)
Theorem get_readonly_fields_idempotent (self : FSMAdminMixin) :
  get_readonly_fields (with_readonly_fields self (get_readonly_fields self)) =
  get_readonly_fields self.
Proof.
  unfold get_readonly_fields at 1. simpl.
  apply readonly_loop_unchanged. intros n Hn.
  rewrite is_protected_with_readonly_fields.
  destruct (is_protected self n) eqn:Hp; [left|by right].
  unfold get_readonly_fields.
  destruct (readonly_loop_added self (fsm_fields self) (readonly_fields self))
    as (added & -> & _ & Hadded).
  destruct (decide (n ∈ readonly_fields self)); [set_solver|].
  apply elem_of_app. right. by apply Hadded.
Qed.

(** ** _get_fsm_object_transitions, as a whole *)

(** X11: an explicit [custom["admin"]] decides alone, whatever
    [default_disallow_transition] is: in every entry of the context a
    returned transition that has the key is listed if and only if its
    value is truthy. *)
Theorem explicit_admin_overrides_default (self : FSMAdminMixin)
    (request : HttpRequest) (obj : Instance) (w : World)
    (ctx : list FSMObjectTransition) (w' : World) :
  _get_fsm_object_transitions self request obj w = (Ok ctx, w') →
  Forall (λ e, ∃ ts, entry_of self request obj e ts ∧
            ∀ t v, t ∈ ts → custom t !! "admin" = Some v →
                   (t ∈ available_transitions e ↔ truthy v = true)) ctx.
Proof.
  intros H. apply _get_fsm_object_transitions_from_entries in H as [_ Hall].
  eapply Forall_impl; [exact Hall|].
  intros e (ts & He). exists ts. split; [done|].
  destruct He as (c & a & a' & _ & _ & ->).
  intros t v Ht Hv. rewrite elem_of_admin_visible.
  unfold dict_get_default. rewrite Hv. simpl. tauto.
Qed.

(** Under [FSM_ADMIN_FORCE_PERMIT] as under the default settings. *)
Lemma explicit_admin_overrides_default_witness :
  Forall (λ e, ∃ ts, entry_of (workflow_admin ∅) change_get_request workflow_post e ts ∧
            ∀ t v, t ∈ ts → custom t !! "admin" = Some v →
                   (t ∈ available_transitions e ↔ truthy v = true))
    [ {| fsm_field := "approval"; available_transitions := [t_approve] |};
      {| fsm_field := "state"; available_transitions := [t_plain; t_shown] |} ].
Proof.
  exact (explicit_admin_overrides_default (workflow_admin ∅) change_get_request
           workflow_post draft_world _
           {| attrs := attrs draft_world; trace := workflow_calls |} eq_refl).
Defined.

Lemma _get_fsm_object_transitions_from_fields self request obj names w ctx w' :
  _get_fsm_object_transitions_from self request obj names w = (Ok ctx, w') →
  fsm_field <$> ctx = List.filter (has_accessor_method obj) names.
Proof.
  revert w ctx. induction names as [|f names IH]; intros w ctx; simpl.
  - intros H. by inversion H.
  - unfold has_accessor_method at 1. unfold bind at 1, getattr.
    destruct (methods obj !! get_available_user_transitions_name f) as [c|] eqn:Hm.
    + change (attr_truthy (AMethod c)) with true. cbv iota.
      unfold bind at 1, call.
      destruct (run c _ (attrs w)) as [o a'].
      destruct o as [r|e]; [|done].
      unfold bind at 1. destruct r as [|v|ts]; try done. unfold iter_transitions, ret at 1.
      unfold bind.
      destruct (_get_fsm_object_transitions_from self request obj names _)
        as [[more|e] w1] eqn:Hrest; [|done].
      intros H. inversion H; subst. simpl. f_equal. by eapply IH.
    + destruct (attrs w !! get_available_user_transitions_name f) as [v|]; [|done].
      destruct (attr_truthy (AValue v)) eqn:Hv.
      * unfold bind at 1, call. done.
      * apply IH.
Qed.

(** X12: when the context is built, its entries are, in sorted order,
    exactly the fields of [fsm_fields] whose accessor is a method of the
    object: none is dropped, and a name without one cannot be among
    them. *)
Theorem context_fields (self : FSMAdminMixin) (request : HttpRequest)
    (obj : Instance) (w : World) (ctx : list FSMObjectTransition) (w' : World) :
  _get_fsm_object_transitions self request obj w = (Ok ctx, w') →
  fsm_field <$> ctx = List.filter (has_accessor_method obj) (sorted (fsm_fields self)).
Proof. apply _get_fsm_object_transitions_from_fields. Qed.

(** Both fields of the workflow post have their accessor. *)
Lemma context_fields_witness :
  fsm_field <$>
    [ {| fsm_field := "approval"; available_transitions := [t_approve] |};
      {| fsm_field := "state"; available_transitions := [t_plain; t_shown] |} ] =
  List.filter (has_accessor_method workflow_post)
              (sorted (fsm_fields (workflow_admin ∅))).
Proof.
  exact (context_fields (workflow_admin ∅) change_get_request workflow_post
           draft_world _ {| attrs := attrs draft_world; trace := workflow_calls |}
           eq_refl).
Defined.

(** X13: the edges of the generator.  Without FSM fields the context
    is empty and nothing is called.  With one field: a missing accessor
    raises [AttributeError]; an accessor that is a falsy value is
    skipped; one that is a truthy plain value raises [TypeError]; an
    exception of the accessor leaves the generator as it is; and an
    accessor that returns [None] raises [TypeError]. *)
Theorem context_edges (self : FSMAdminMixin) (request : HttpRequest)
    (obj : Instance) (w : World) :
  (fsm_fields self = [] →
     _get_fsm_object_transitions self request obj w = (Ok [], w)) ∧
  (∀ f, fsm_fields self = [f] →
     let fn := get_available_user_transitions_name f in
     (methods obj !! fn = None → attrs w !! fn = None →
        _get_fsm_object_transitions self request obj w = (Err (AttributeError fn), w)) ∧
     (∀ v, methods obj !! fn = None → attrs w !! fn = Some v → truthy v = false →
        _get_fsm_object_transitions self request obj w = (Ok [], w)) ∧
     (∀ v, methods obj !! fn = None → attrs w !! fn = Some v → truthy v = true →
        plain_value v = true →
        ∃ msg, _get_fsm_object_transitions self request obj w = (Err (TypeError msg), w)) ∧
     (∀ c e a', methods obj !! fn = Some c →
        run c (kwargs_user request) (attrs w) = (Raises e, a') →
        _get_fsm_object_transitions self request obj w =
          (Err e, {| attrs := a'; trace := trace w ++ [EvCall fn (kwargs_user request)] |})) ∧
     (∀ c r a', methods obj !! fn = Some c →
        run c (kwargs_user request) (attrs w) = (Returns r, a') →
        r = RNone ∨ r = RVal VNone →
        ∃ msg, _get_fsm_object_transitions self request obj w =
          (Err (TypeError msg),
           {| attrs := a'; trace := trace w ++ [EvCall fn (kwargs_user request)] |}))).
Proof.
  unfold _get_fsm_object_transitions. split.
  - intros H. rewrite H. done.
  - intros f H. set (fn := get_available_user_transitions_name f).
    rewrite H. change (sorted [f]) with [f]. simpl. fold fn.
    split; [|split; [|split; [|split]]].
    + intros Hm Ha. unfold bind at 1, getattr. by rewrite Hm, Ha.
    + intros v Hm Ha Hv. unfold bind at 1, getattr. rewrite Hm, Ha. simpl.
      by rewrite Hv.
    + intros v Hm Ha Hv _. unfold bind at 1, getattr. rewrite Hm, Ha. simpl.
      rewrite Hv. unfold bind, call. eauto.
    + intros c e a' Hm Hrun. unfold bind at 1, getattr. rewrite Hm. simpl.
      unfold bind at 1. fold (kwargs_user request).
      by rewrite (call_method _ _ _ _ _ _ Hrun).
    + intros c r a' Hm Hrun Hr. unfold bind at 1, getattr. rewrite Hm. simpl.
      unfold bind at 1. fold (kwargs_user request).
      rewrite (call_method _ _ _ _ _ _ Hrun).
      unfold bind at 1. destruct Hr as [-> | ->]; eauto.
Qed.

(** An admin that lists a field the post has no accessor for. *)
Lemma context_edges_witness :
  _get_fsm_object_transitions (with_fsm_fields blog_admin ["ghost"]) change_get_request
      workflow_post draft_world =
    (Err (AttributeError "get_available_user_ghost_transitions"), draft_world).
Proof.
  destruct (context_edges (with_fsm_fields blog_admin ["ghost"]) change_get_request
              workflow_post draft_world) as [_ H].
  destruct (H "ghost" eq_refl) as [H1 _]. apply H1; reflexivity.
Defined.

Lemma _get_fsm_object_transitions_from_with_fsm_fields self fields request obj names w :
  _get_fsm_object_transitions_from (with_fsm_fields self fields) request obj names w =
  _get_fsm_object_transitions_from self request obj names w.
Proof.
  revert w. induction names as [|f names IH]; intros w; simpl; [done|].
  unfold bind.
  destruct (getattr obj _ w) as [[func|e] w1]; [|done].
  destruct (attr_truthy func); [|apply IH].
  destruct (call _ func _ w1) as [[r|e] w2]; [|done].
  destruct (iter_transitions r w2) as [[ts|e] w3]; [|done].
  rewrite IH. done.
Qed.

(** X14: the order in which [fsm_fields] lists the fields does not
    matter: listing the same names in another order gives the same
    calls, in the same order, and the same context. *)
Theorem fsm_fields_order_irrelevant (self : FSMAdminMixin) (fields : list string)
    (request : HttpRequest) (obj : Instance) (w : World) :
  fields ≡ₚ fsm_fields self →
  _get_fsm_object_transitions (with_fsm_fields self fields) request obj w =
  _get_fsm_object_transitions self request obj w.
Proof.
  intros Hperm. unfold _get_fsm_object_transitions.
  rewrite _get_fsm_object_transitions_from_with_fsm_fields. simpl.
  assert (sorted fields = sorted (fsm_fields self)) as ->; [|done].
  apply (Sorted_unique String.le); [apply sorted_Sorted | apply sorted_Sorted |].
  by rewrite !sorted_Permutation.
Qed.

(** The workflow admin with its two fields the other way round. *)
Lemma fsm_fields_order_irrelevant_witness :
  _get_fsm_object_transitions
      (with_fsm_fields (workflow_admin ∅) ["approval"; "state"])
      change_get_request workflow_post draft_world =
  _get_fsm_object_transitions (workflow_admin ∅) change_get_request workflow_post
      draft_world.
Proof.
  apply (fsm_fields_order_irrelevant (workflow_admin ∅) ["approval"; "state"]
           change_get_request workflow_post draft_world).
  simpl. apply Permutation_swap.
Defined.
